(** * ofxstatement-paypal: the PayPal CSV statement parser

    A shallow embedding of [src/ofxstatement/plugins/paypal.py] and the
    properties of its row filter, record mapper, header validation,
    scoped locale handling and settings parsing.

    Conventions of the embedding.
    - A Python [str] is a [string]; a character is its code point, in the
      8-bit range (the plugin's default encoding, iso8859-1, decodes every
      byte to the code point of the same number).
    - A Python exception is a constructor of [exn]; a call that may raise
      returns a [result].  Messages of exceptions are not kept.
    - A list subscript [r[i]] is stdpp's lookup [r !! i], with [IndexError]
      out of range.
    - The process-wide locale is threaded explicitly (type [process]). *)

From stdpp Require Import base list strings gmap.
From Stdlib Require Import ZArith QArith Ascii.

Local Open Scope Z_scope.
Local Open Scope nat_scope.

(** ** Exceptions and results *)

Inductive exn : Set :=
  | IndexError
  | ValueError
  | TypeError
  | AttributeError
  | OSError
  | LocaleError.

Inductive result (A : Type) : Type :=
  | Ok (a : A)
  | Raise (e : exn).
Arguments Ok {A} a.
Arguments Raise {A} e.

Global Instance result_ret : MRet result := fun A a => Ok a.
Global Instance result_bind : MBind result := fun A B f m =>
  match m with
  | Ok a => f a
  | Raise e => Raise e
  end.

Global Instance exn_eq_dec : EqDecision exn.
Proof. solve_decision. Defined.

(** ** Python values a row may hold: [None] or a [str] *)

Inductive pyval : Set :=
  | PNone
  | PStr (s : string).

Global Instance pyval_eq_dec : EqDecision pyval.
Proof. solve_decision. Defined.

(** A row as [parse_record] and [rows] receive it: a Python list. *)
Abbreviation row := (list pyval).

(** [x is not None] *)
Definition is_not_None (v : pyval) : bool :=
  match v with
  | PNone => false
  | PStr _ => true
  end.

(** [x == s] for a string [s]: [None] equals no string. *)
Definition py_eq_str (v : pyval) (s : string) : bool :=
  match v with
  | PNone => false
  | PStr t => bool_decide (t = s)
  end.

(** Formatting inside an f-string: [None] prints as its name. *)
Definition py_format (v : pyval) : string :=
  match v with
  | PNone => "None"
  | PStr s => s
  end.

(** [l[i]] *)
Definition getitem {A : Type} (l : list A) (i : nat) : result A :=
  match l !! i with
  | Some x => Ok x
  | None => Raise IndexError
  end.

(** [l.index(x)]: the position of the first element equal to [x]. *)
Fixpoint index (l : list string) (x : string) : result nat :=
  match l with
  | [] => Raise ValueError
  | y :: l' => if decide (y = x) then Ok 0 else n ← index l' x; Ok (S n)
  end.

(** A list comprehension with a condition that may raise. *)
Fixpoint filterM {A : Type} (p : A → result bool) (l : list A) : result (list A) :=
  match l with
  | [] => Ok []
  | x :: l' =>
      b ← p x;
      k ← filterM p l';
      Ok (if b : bool then x :: k else k)
  end.

(** ** Class attributes of [PayPalStatementParser] *)

Definition bank_id : string := "PayPal".
Definition date_format : string := "%d/%m/%Y".

Definition valid_header : list string :=
  [ "Date"; "Time"; "Time Zone"; "Name"; "Type"; "Status"; "Currency";
    "Gross"; "Fee"; "Net"; "From Email Address"; "To Email Address";
    "Transaction ID"; "Shipping Address"; "Item Title"; "Item ID";
    "Shipping and Handling Amount"; "Reference Txn ID"; "Receipt ID";
    "Balance"; "Contact Phone Number"; "Subject"; "Note"; "Balance Impact";
    "" ].

Definition excluded_type : string := "Bank Deposit to PP Account".

(** ** The row filter, [PayPalStatementParser.rows]

    [rs] is [drop(self.reader, 1)], the data rows; [currency] is
    [self.currency]. The condition of the comprehension evaluates
    [r[currency_idx]] first and [r[type_idx]] only when the currency
    matches ([and] short-circuits). *)
Definition rows_of (currency : string) (rs : list row) : result (list row) :=
  currency_idx ← index valid_header "Currency";
  type_idx ← index valid_header "Type";
  filterM (λ r,
    c ← getitem r currency_idx;
    if py_eq_str c currency
    then t ← getitem r type_idx; Ok (negb (py_eq_str t excluded_type))
    else Ok false) rs.

(** The fields of a row the filter reads, by position. *)
Definition field (r : row) (i : nat) : pyval := default PNone (r !! i).

(** The predicate the filter is meant to decide. *)
Definition keeps (currency : string) (r : row) : bool :=
  py_eq_str (field r 6) currency && negb (py_eq_str (field r 4) excluded_type).

(** ** String methods of the Python runtime used by the module *)

Definition code (c : ascii) : nat := nat_of_ascii c.

(** [str.replace(old, new)] for a non-empty [old]: occurrences are replaced
    left to right and do not overlap.  [skip] counts the characters of a
    replaced occurrence still to be passed over. *)
Fixpoint replace_from (old new : string) (skip : nat) (s : string) : string :=
  match s with
  | EmptyString => EmptyString
  | String c s' =>
      match skip with
      | S k => replace_from old new k s'
      | O =>
          if String.prefix old s
          then new +:+ replace_from old new (String.length old - 1) s'
          else String c (replace_from old new 0 s')
      end
  end.

(** With an empty [old], Python puts [new] before every character and at
    the end. *)
Fixpoint interleave (new s : string) : string :=
  match s with
  | EmptyString => new
  | String c s' => new +:+ String c (interleave new s')
  end.

Definition replace (s old new : string) : string :=
  match old with
  | EmptyString => interleave new s
  | _ => replace_from old new 0 s
  end.

(** Whitespace as [str.strip()] sees it, among the 8-bit code points. *)
Definition is_space (c : ascii) : bool :=
  let n := code c in
  ((9 <=? n) && (n <=? 13)) || ((28 <=? n) && (n <=? 32))
  || (n =? 133) || (n =? 160).

Fixpoint lstrip (s : string) : string :=
  match s with
  | EmptyString => EmptyString
  | String c s' => if is_space c then lstrip s' else s
  end.

Fixpoint rstrip (s : string) : string :=
  match s with
  | EmptyString => EmptyString
  | String c s' =>
      match rstrip s' with
      | EmptyString => if is_space c then EmptyString else String c EmptyString
      | t => String c t
      end
  end.

(** [str.strip()] *)
Definition strip (s : string) : string := lstrip (rstrip s).

(** ** Decimal digits *)

Definition is_digit (c : ascii) : bool :=
  let n := code c in (48 <=? n) && (n <=? 57).

Definition digit_val (c : ascii) : nat := code c - 48.

(** The longest prefix of digits, and what follows it. *)
Fixpoint span_digits (s : string) : string * string :=
  match s with
  | EmptyString => (EmptyString, EmptyString)
  | String c s' =>
      if is_digit c
      then let '(d, r) := span_digits s' in (String c d, r)
      else (EmptyString, s)
  end.

(** [int(s)] of a string of digits, most significant first. *)
Fixpoint N_of_digits_acc (acc : N) (s : string) : N :=
  match s with
  | EmptyString => acc
  | String c s' => N_of_digits_acc (acc * 10 + N.of_nat (digit_val c))%N s'
  end.

Definition N_of_digits (s : string) : N := N_of_digits_acc 0%N s.

(** ** The built-in [float] on strings

    The value is kept as the decimal number the text denotes,
    [(-1)^neg * mant * 10^exp10].  [float] returns the double nearest to
    that decimal (an infinity beyond the range of doubles); the embedding
    names the double by the decimal and leaves the rounding out.  Up to
    15 significant digits a decimal and its double determine each other,
    and an integer below 2^53 is its double; the properties that give an
    amount in general keep to that range. *)
Inductive pyfloat : Set :=
  | FFinite (neg : bool) (mant : N) (exp10 : Z)
  | FInf (neg : bool)
  | FNan.

Global Instance pyfloat_eq_dec : EqDecision pyfloat.
Proof. solve_decision. Defined.

(** The rational a finite [pyfloat] denotes. *)
Definition float_to_Q (f : pyfloat) : option Q :=
  match f with
  | FFinite neg m e =>
      let q := (inject_Z (Z.of_N m) * Qpower (10 # 1) e)%Q in
      Some (if neg then Qopp q else q)
  | _ => None
  end.

(** Whitespace [float] strips at both ends: the ASCII blanks, and the
    8-bit Unicode spaces (which it first turns into blanks). *)
Definition is_float_space (c : ascii) : bool :=
  let n := code c in
  ((9 <=? n) && (n <=? 13)) || (n =? 32) || (n =? 133) || (n =? 160).

Fixpoint float_lstrip (s : string) : string :=
  match s with
  | EmptyString => EmptyString
  | String c s' => if is_float_space c then float_lstrip s' else s
  end.

Fixpoint float_rstrip (s : string) : string :=
  match s with
  | EmptyString => EmptyString
  | String c s' =>
      match float_rstrip s' with
      | EmptyString => if is_float_space c then EmptyString else String c EmptyString
      | t => String c t
      end
  end.

(** Underscores in a numeric literal: allowed only between two digits.
    [prev] is the character before [s]. Returns the text without them. *)
Fixpoint drop_underscores (prev : option ascii) (s : string) : option string :=
  match s with
  | EmptyString =>
      match prev with
      | Some "_"%char => None
      | _ => Some EmptyString
      end
  | String c s' =>
      if decide (c = "_"%char)
      then
        match prev with
        | Some p => if is_digit p then drop_underscores (Some c) s' else None
        | None => None
        end
      else
        match prev with
        | Some "_"%char =>
            if is_digit c then String c <$> drop_underscores (Some c) s' else None
        | _ => String c <$> drop_underscores (Some c) s'
        end
  end.

Definition lower_char (c : ascii) : ascii :=
  let n := code c in
  if (65 <=? n) && (n <=? 90) then ascii_of_nat (n + 32) else c.

Fixpoint lower (s : string) : string :=
  match s with
  | EmptyString => EmptyString
  | String c s' => String (lower_char c) (lower s')
  end.

(** An optional sign: whether it is a minus, and the rest. *)
Definition take_sign (s : string) : bool * string :=
  match s with
  | String "-"%char s' => (true, s')
  | String "+"%char s' => (false, s')
  | _ => (false, s)
  end.

(** The exponent part, [e] or [E], an optional sign and at least one
    digit, up to the end of the text; no exponent at all is 0. *)
Definition parse_exponent (s : string) : option Z :=
  match s with
  | EmptyString => Some 0%Z
  | String c s' =>
      if decide (c = "e"%char ∨ c = "E"%char)
      then
        let '(neg, s1) := take_sign s' in
        match span_digits s1 with
        | (String d ds, EmptyString) =>
            let v := Z.of_N (N_of_digits (String d ds)) in
            Some (if neg : bool then (- v)%Z else v)
        | _ => None
        end
      else None
  end.

(** An unsigned decimal literal: digits, an optional point, digits (at
    least one digit in all), an optional exponent. *)
Definition parse_decimal (neg : bool) (s : string) : option pyfloat :=
  let '(ip, r) := span_digits s in
  let '(fp, r') :=
    match r with
    | String "."%char r1 => span_digits r1
    | _ => (EmptyString, r)
    end in
  match ip +:+ fp with
  | EmptyString => None
  | ds =>
      e ← parse_exponent r';
      Some (FFinite neg (N_of_digits ds) (e - Z.of_nat (String.length fp))%Z)
  end.

(** [float(s)]; [ValueError] when the text is no number. *)
Definition float (s : string) : result pyfloat :=
  match float_rstrip (float_lstrip s) with
  | EmptyString => Raise ValueError
  | t =>
      match drop_underscores None t with
      | None => Raise ValueError
      | Some u =>
          let '(neg, body) := take_sign u in
          let w := lower body in
          if decide (w = "inf" ∨ w = "infinity") then Ok (FInf neg)
          else if decide (w = "nan") then Ok FNan
          else
            match parse_decimal neg body with
            | Some f => Ok f
            | None => Raise ValueError
            end
      end
  end.

(** ** [datetime.strptime]

    The runtime turns the format into a regular expression, one group per
    directive, and matches it at the start of the text.  A group is an
    ordered alternation of sequences of character classes; the first
    alternative that lets the rest of the pattern match is taken.  Only
    the directives of [date_format] are given here. *)

Definition cls : Type := ascii → bool.

Definition is_char (a : ascii) : cls := λ c, bool_decide (c = a).
Definition between (lo hi : ascii) : cls :=
  λ c, (code lo <=? code c) && (code c <=? code hi).

Definition group : Type := list (list cls).

(** [%d]: 3[0-1] | [1-2]\d | 0[1-9] | [1-9] | " "[1-9] *)
Definition directive_d : group :=
  [ [is_char "3"; between "0" "1"];
    [between "1" "2"; is_digit];
    [is_char "0"; between "1" "9"];
    [between "1" "9"];
    [is_char " "; between "1" "9"] ].

(** [%m]: 1[0-2] | 0[1-9] | [1-9] *)
Definition directive_m : group :=
  [ [is_char "1"; between "0" "2"];
    [is_char "0"; between "1" "9"];
    [between "1" "9"] ].

(** [%Y]: \d\d\d\d *)
Definition directive_Y : group :=
  [ [is_digit; is_digit; is_digit; is_digit] ].

Definition directive (c : ascii) : option group :=
  if decide (c = "d"%char) then Some directive_d
  else if decide (c = "m"%char) then Some directive_m
  else if decide (c = "Y"%char) then Some directive_Y
  else None.

(** The pattern of a format: a directive after each [%], any other
    character standing for itself. *)
Fixpoint format_regex (fmt : string) : option (list group) :=
  match fmt with
  | EmptyString => Some []
  | String "%"%char (String d rest) =>
      g ← directive d; gs ← format_regex rest; Some (g :: gs)
  | String c rest => gs ← format_regex rest; Some ([[is_char c]] :: gs)
  end.

Fixpoint match_seq (ps : list cls) (s : string) : option (string * string) :=
  match ps with
  | [] => Some (EmptyString, s)
  | p :: ps' =>
      match s with
      | String c s' =>
          if p c then '(m, r) ← match_seq ps' s'; Some (String c m, r) else None
      | EmptyString => None
      end
  end.

Fixpoint first_some {A B : Type} (f : A → option B) (l : list A) : option B :=
  match l with
  | [] => None
  | x :: l' =>
      match f x with
      | Some b => Some b
      | None => first_some f l'
      end
  end.

(** The texts the groups matched, and what is left of the input. *)
Fixpoint match_groups (gs : list group) (s : string) : option (list string * string) :=
  match gs with
  | [] => Some ([], s)
  | alts :: gs' =>
      first_some (λ ps,
        '(m, r) ← match_seq ps s;
        '(ms, r') ← match_groups gs' r;
        Some (m :: ms, r')) alts
  end.

(** The result of [strptime]: a [datetime] at midnight. *)
Record datetime : Set := { year : N; month : N; day : N }.

Global Instance datetime_eq_dec : EqDecision datetime.
Proof. solve_decision. Defined.

Definition is_leap (y : N) : bool :=
  ((y mod 4 =? 0) && (negb (y mod 100 =? 0) || (y mod 400 =? 0)))%N.

Definition days_in_month (y m : N) : N :=
  match m with
  | 2 => if is_leap y then 29 else 28
  | 4 | 6 | 9 | 11 => 30
  | _ => 31
  end%N.

(** The constructor of a date checks its fields. *)
Definition make_datetime (y m d : N) : result datetime :=
  if ((1 <=? y) && (y <=? 9999) && (1 <=? m) && (m <=? 12)
      && (1 <=? d) && (d <=? days_in_month y m))%N
  then Ok {| year := y; month := m; day := d |}
  else Raise ValueError.

(** [int(s)] of a matched group: blanks before the digits are skipped. *)
Definition int_of_group (s : string) : N := N_of_digits (lstrip s).

(** [datetime.strptime(data, "%d/%m/%Y")]: the groups are day, "/",
    month, "/", year. *)
Definition strptime (data : pyval) (format : string) : result datetime :=
  match data with
  | PNone => Raise TypeError
  | PStr s =>
      match format_regex format with
      | None => Raise ValueError
      | Some gs =>
          match match_groups gs s with
          | Some ([d; _; m; _; y], EmptyString) =>
              make_datetime (int_of_group y) (int_of_group m) (int_of_group d)
          | _ => Raise ValueError
          end
      end
  end.

(** ** The process-wide locale

    The C library knows the installed locales: [resolve] gives the name
    of the locale a request selects ([None]: the request is refused),
    [localeconv_of] its numeric conventions.  The runtime's [locale]
    module has an alias table of its own: [normalize] is the name it
    rewrites a request to, [parse_localename] the pair of language and
    encoding it reads off a name (after normalising it).  A name the
    runtime cannot read makes [getlocale] raise [ValueError]; the settings
    considered here are ones it can read. *)

Record lconv : Set := { decimal_point : string; thousands_sep : string }.

Class LocaleDB : Type := {
  resolve : string → option string;
  localeconv_of : string → lconv;
  normalize : string → string;
  parse_localename : string → option string * option string
}.

(** [locale._build_localename]: the name for a pair of language and
    encoding; no language stands for "C". *)
Definition build_localename (pair : option string * option string) : string :=
  let '(language, encoding) := pair in
  let language := default "C" language in
  match encoding with
  | None => language
  | Some enc => language +:+ "." +:+ enc
  end.

(** The state of the process the module touches: the [LC_NUMERIC]
    setting. *)
Record process : Set := { lc_numeric : string }.

Global Instance process_eq_dec : EqDecision process.
Proof. solve_decision. Defined.

(** Computations that read and write the process state and may raise. *)
Definition M (A : Type) : Type := process → result A * process.

Global Instance M_ret : MRet M := λ A a st, (Ok a, st).
Global Instance M_bind : MBind M := λ A B k m st,
  match m st with
  | (Ok a, st') => k a st'
  | (Raise e, st') => (Raise e, st')
  end.

(** A call that does not touch the process state. *)
Definition lift {A : Type} (r : result A) : M A := λ st, (r, st).

(** [try: body finally: fin]: [fin] runs whatever [body] did; when [fin]
    raises, its exception is the one that leaves the statement. *)
Definition try_finally {A : Type} (body : M A) (fin : M unit) : M A := λ st,
  let '(r, st1) := body st in
  match fin st1 with
  | (Ok _, st2) => (r, st2)
  | (Raise e, st2) => (Raise e, st2)
  end.

(** What [locale.delocalize] does with the conventions [conv] it read:
    the grouping is removed, then the decimal point becomes a dot; an
    empty convention is skipped. *)
Definition delocalize_with (conv : lconv) (s : string) : string :=
  let ts := thousands_sep conv in
  let s1 := match ts with EmptyString => s | _ => replace s ts "" end in
  let dd := decimal_point conv in
  match dd with EmptyString => s1 | _ => replace s1 dd "." end.

Section Locale.
Context `{LocaleDB}.

(** [locale.getlocale(LC_NUMERIC)]: the current setting, handed out as
    the pair of language and encoding read off its name. *)
Definition getlocale : M (option string * option string) := λ st,
  (Ok (parse_localename (lc_numeric st)), st).

(** [locale.setlocale(LC_NUMERIC, loc)]: [None] only asks for the current
    setting; a name selects a locale, or raises [locale.Error] when the
    C library refuses it, leaving the setting as it was. *)
Definition setlocale (loc : option string) : M string := λ st,
  match loc with
  | None => (Ok (lc_numeric st), st)
  | Some name =>
      match resolve name with
      | Some c => (Ok c, {| lc_numeric := c |})
      | None => (Raise LocaleError, st)
      end
  end.

(** [locale.setlocale(LC_NUMERIC, pair)]: an argument that is not a
    string is turned into a name, built from the pair and normalised,
    and that name is requested. *)
Definition setlocale_pair (pair : option string * option string) : M string :=
  setlocale (Some (normalize (build_localename pair))).

(** The name the restore of [scoped_setlocale] requests from a process:
    built from the pair [getlocale] reports for its setting. *)
Definition restore_request (st : process) : string :=
  normalize (build_localename (parse_localename (lc_numeric st))).

(** The setting of the process survives a trip through [getlocale] and
    [setlocale]: the restore request selects it again. *)
Definition restorable (st : process) : Prop :=
  resolve (restore_request st) = Some (lc_numeric st).

(** [locale.localeconv()] *)
Definition localeconv : M lconv := λ st, (Ok (localeconv_of (lc_numeric st)), st).

(** [locale.delocalize(string)] *)
Definition delocalize (s : string) : M string :=
  conv ← localeconv; mret (delocalize_with conv s).

(** [locale.atof(string)] *)
Definition locale_atof (s : string) : M pyfloat :=
  d ← delocalize s; lift (float d).

(** [scoped_setlocale(LC_NUMERIC, loc)] around a [with] body.  The body
    runs at the generator's [yield], inside its [try]; the [finally]
    clause hands the saved pair back to [setlocale]. *)
Definition scoped_setlocale {A : Type} (loc : option string) (body : string → M A) : M A :=
  orig ← getlocale;
  try_finally (v ← setlocale loc; body v)
              (_ ← setlocale_pair orig; mret ()).

(** [atof(string, loc)] *)
Definition atof (s : string) (loc : option string) : M pyfloat :=
  scoped_setlocale loc (λ _, locale_atof s).

End Locale.

(** ** Statement lines and the parser object *)

Module StatementLine.
(** The attributes [parse_record] sets on a fresh [StatementLine]. *)
Record t : Set := {
  id : pyval;
  date : datetime;
  memo : pyval;
  payee : string;
  refnum : pyval;
  amount : pyfloat
}.
End StatementLine.

(** The attributes [__init__] stores; [lines] is what [readlines] gave. *)
Record PayPalStatementParser : Set := {
  account_id : string;
  currency : string;
  locale : option string;
  encoding : option string;
  analyze : bool;
  lines : list string
}.

(** [take], [drop] and [head] on an iterable consumed as a list. *)
Module Iter.
Definition take {A : Type} (iterable : list A) (n : nat) : list A := firstn n iterable.
Definition drop {A : Type} (iterable : list A) (n : nat) : list A := skipn n iterable.
Definition head {A : Type} (iterable : list A) : result A := getitem (take iterable 1) 0.
End Iter.

(** A row of the [csv] reader as a Python list: every field is a [str]. *)
Definition from_csv (fields : list string) : row := PStr <$> fields.

Section Record_mapper.
Context `{LocaleDB}.

(** [PayPalStatementParser.parse_record] *)
Definition parse_record (self : PayPalStatementParser) (row : row) : M StatementLine.t :=
  id_idx ← lift (index valid_header "Transaction ID");
  date_idx ← lift (index valid_header "Date");
  name_idx ← lift (index valid_header "Name");
  refnum_idx ← lift (index valid_header "Reference Txn ID");
  amount_idx ← lift (index valid_header "Gross");
  payee_idx ← lift (index valid_header "To Email Address");
  title_idx ← lift (index valid_header "Item Title");
  subject_idx ← lift (index valid_header "Subject");
  note_idx ← lift (index valid_header "Note");
  let memo := PStr "" in
  note ← lift (getitem row note_idx);
  let memo := if is_not_None note then note else memo in
  subject ← lift (getitem row subject_idx);
  let memo := if is_not_None subject then subject else memo in
  title ← lift (getitem row title_idx);
  let memo := if is_not_None title then title else memo in
  id ← lift (getitem row id_idx);
  d ← lift (getitem row date_idx);
  date ← lift (strptime d date_format);
  name ← lift (getitem row name_idx);
  email ← lift (getitem row payee_idx);
  let payee := "Name: " +:+ py_format name +:+ " Email: " +:+ py_format email in
  refnum ← lift (getitem row refnum_idx);
  gross ← lift (getitem row amount_idx);
  text ← lift (match gross with
               | PNone => Raise AttributeError
               | PStr g => Ok (replace (replace (replace g " " "") "." "") "," ".")
               end);
  amount ← atof text (locale self);
  mret {| StatementLine.id := id;
          StatementLine.date := date;
          StatementLine.memo := memo;
          StatementLine.payee := payee;
          StatementLine.refnum := refnum;
          StatementLine.amount := amount |}.

(** Modelled from the spec: the loop that drives the parser is inherited
    from the statement framework and is not part of this repository.  It
    takes the records in order, maps each with [parse_record] and collects
    the lines; the first exception ends the run with no output. *)
Fixpoint parse_records (self : PayPalStatementParser) (records : list row)
    : M (list StatementLine.t) :=
  match records with
  | [] => mret []
  | r :: rest =>
      line ← parse_record self r;
      more ← parse_records self rest;
      mret (line :: more)
  end.

End Record_mapper.

(** ** Files and the [csv] module

    [readlines fin encoding] is [open(fin, 'r', encoding=encoding)] followed
    by [f.readlines()]; [csv_reader] is [csv.reader] with the dialect the
    module asks for, read to its end. Every field it yields is a [str]. *)
Class Files : Type := {
  readlines : string → option string → result (list string);
  csv_reader : list string → list (list string)
}.

Section Parser.
Context `{Files}.

(** [PayPalStatementParser.__init__]; the call of [validate] is commented
    out in the source. *)
Definition init (fin : string) (account_id currency : string)
    (encoding locale : option string) (analyze : bool) : result PayPalStatementParser :=
  lines ← readlines fin encoding;
  Ok {| account_id := account_id; currency := currency; locale := locale;
        encoding := encoding; analyze := analyze; lines := lines |}.

(** The [reader] property. *)
Definition reader (self : PayPalStatementParser) : list (list string) :=
  csv_reader (lines self).

(** The [header] property. *)
Definition header (self : PayPalStatementParser) : result (list string) :=
  h ← Iter.head (reader self); Ok (strip <$> (h : list string)).

(** The [rows] property. *)
Definition rows (self : PayPalStatementParser) : result (list row) :=
  rows_of (currency self) (from_csv <$> Iter.drop (reader self) 1).

(** [PayPalStatementParser.validate] *)
Definition validate (self : PayPalStatementParser) : result unit :=
  let expected := valid_header in
  actual ← header self;
  if decide (expected ≠ actual) then Raise ValueError else Ok ().

(** [PayPalStatementParser.split_records] *)
Definition split_records (self : PayPalStatementParser) : result (list row) :=
  rows self.

End Parser.

(** ** Settings *)

(** [parse_bool] *)
Definition parse_bool (value : string) : result bool :=
  if decide (value ∈ ["True"; "true"; "1"]) then Ok true
  else if decide (value ∈ ["False"; "false"; "0"]) then Ok false
  else Raise ValueError.

(** A value of the keyword dictionary [get_parser] builds. *)
Inductive kwarg : Set :=
  | KStr (s : string)
  | KBool (b : bool).

Definition copy_setting (key : string) (settings : gmap string string)
    (kwargs : gmap string kwarg) : gmap string kwarg :=
  match settings !! key with
  | Some v => <[key := KStr v]> kwargs
  | None => kwargs
  end.

Section Plugin.
Context `{Files}.

(** [PayPalStatementParser(fin, **kwargs)]: [account_id] and [currency]
    have no default, the others default to [None] and [False]. *)
Definition new_parser (fin : string) (kwargs : gmap string kwarg)
    : result PayPalStatementParser :=
  let opt_str (key : string) : result (option string) :=
    match kwargs !! key with
    | None => Ok None
    | Some (KStr s) => Ok (Some s)
    | Some (KBool _) => Raise TypeError
    end in
  match kwargs !! "account_id", kwargs !! "currency" with
  | Some (KStr a), Some (KStr c) =>
      enc ← opt_str "encoding";
      loc ← opt_str "locale";
      match kwargs !! "analyze" with
      | None => init fin a c enc loc false
      | Some (KBool b) => init fin a c enc loc b
      | Some (KStr _) => Raise TypeError
      end
  | _, _ => Raise TypeError
  end.

(** [PayPalPlugin.get_parser]; [settings] empty stands for a plugin
    without settings. *)
Definition get_parser (settings : gmap string string) (fin : string)
    : result PayPalStatementParser :=
  let kwargs : gmap string kwarg := {[ "encoding" := KStr "iso8859-1" ]} in
  kwargs ←
    (if decide (settings = ∅) then Ok kwargs
     else
       let kwargs := copy_setting "account_id" settings kwargs in
       let kwargs := copy_setting "currency" settings kwargs in
       let kwargs := copy_setting "locale" settings kwargs in
       let kwargs := copy_setting "encoding" settings kwargs in
       match settings !! "analyze" with
       | Some v => b ← parse_bool v; Ok (<["analyze" := KBool b]> kwargs)
       | None => Ok kwargs
       end);
  new_parser fin kwargs.

End Plugin.

(** ** Reference definitions the properties are stated against *)

(** The memo by precedence: Item Title when present, else Subject, else
    Note, else the empty string. *)
Definition memo_precedence (r : row) : pyval :=
  if is_not_None (field r 14) then field r 14
  else if is_not_None (field r 21) then field r 21
  else if is_not_None (field r 22) then field r 22
  else PStr "".

(** The Gross text made ready for parsing, character by character: a
    space or a dot goes, a comma becomes a dot. *)
Fixpoint normalized (g : string) : string :=
  match g with
  | EmptyString => EmptyString
  | String c g' =>
      if decide (c = " "%char ∨ c = "."%char) then normalized g'
      else if decide (c = ","%char) then String "."%char (normalized g')
      else String c (normalized g')
  end.

(** The text handed to [atof] for a Gross field. *)
Definition gross_text (v : pyval) : result string :=
  match v with
  | PNone => Raise AttributeError
  | PStr g => Ok (normalized g)
  end.

(** The line the mapper is expected to build from a row, its parsed date
    and its parsed amount. *)
Definition mapped (r : row) (d : datetime) (a : pyfloat) : StatementLine.t :=
  {| StatementLine.id := field r 12;
     StatementLine.date := d;
     StatementLine.memo := memo_precedence r;
     StatementLine.payee :=
       "Name: " +:+ py_format (field r 3) +:+ " Email: " +:+ py_format (field r 11);
     StatementLine.refnum := field r 17;
     StatementLine.amount := a |}.

(** The locale in effect while [atof] parses: the configured one as the
    C library resolves it, or the current one when none is configured. *)
Definition effective_locale `{LocaleDB} (loc : option string) (st : process)
    : option string :=
  match loc with
  | None => Some (lc_numeric st)
  | Some name => resolve name
  end.

(** The strict reading of DD/MM/YYYY: two digits, a slash, two digits, a
    slash, four digits, and nothing else. *)
Definition strict_DDMMYYYY (s : string) : bool :=
  match match_seq [is_digit; is_digit; is_char "/"; is_digit; is_digit;
                   is_char "/"; is_digit; is_digit; is_digit; is_digit] s with
  | Some (_, EmptyString) => true
  | _ => false
  end.

(** The texts [strptime] takes for a day and for a month. *)
Definition day_texts : list string :=
  [ "30"; "31";
    "10"; "11"; "12"; "13"; "14"; "15"; "16"; "17"; "18"; "19";
    "20"; "21"; "22"; "23"; "24"; "25"; "26"; "27"; "28"; "29";
    "01"; "02"; "03"; "04"; "05"; "06"; "07"; "08"; "09";
    "1"; "2"; "3"; "4"; "5"; "6"; "7"; "8"; "9";
    " 1"; " 2"; " 3"; " 4"; " 5"; " 6"; " 7"; " 8"; " 9" ].

Definition month_texts : list string :=
  [ "10"; "11"; "12";
    "01"; "02"; "03"; "04"; "05"; "06"; "07"; "08"; "09";
    "1"; "2"; "3"; "4"; "5"; "6"; "7"; "8"; "9" ].

(** A text that one alternative of a group matches from end to end. *)
Definition matches_group (g : group) (m : string) : Prop :=
  ∃ ps, ps ∈ g ∧ match_seq ps m = Some (m, EmptyString).

(** A year text: exactly four digits. *)
Definition year_text (y : string) : Prop :=
  match_seq [is_digit; is_digit; is_digit; is_digit] y = Some (y, EmptyString).

(** ** A sample of installed locales, for the concrete cases

    The C locale, the C locale with UTF-8, and a German locale with the
    conventions the C library ships for it: a comma for the decimal
    point, a dot for grouping.  The runtime's alias table rewrites
    "C.utf8" to "en_US.UTF-8", a locale that is not installed here. *)
Definition sample_locales : LocaleDB := {|
  resolve := λ name,
    if decide (name = "C" ∨ name = "de_DE.UTF-8" ∨ name = "C.utf8") then Some name
    else if decide (name = "") then Some "C"
    else None;
  localeconv_of := λ name,
    if decide (name = "de_DE.UTF-8")
    then {| decimal_point := ","; thousands_sep := "." |}
    else {| decimal_point := "."; thousands_sep := "" |};
  normalize := λ name,
    if decide (name = "C.utf8") then "en_US.UTF-8" else name;
  parse_localename := λ name,
    if decide (name = "de_DE.UTF-8") then (Some "de_DE", Some "UTF-8")
    else if decide (name = "C.utf8") then (Some "en_US", Some "UTF-8")
    else (None, None)
|}.

Definition sample_parser (loc : option string) : PayPalStatementParser :=
  {| account_id := "acct"; currency := "EUR"; locale := loc;
     encoding := Some "iso8859-1"; analyze := false; lines := [] |}.

(** A full row: a payment of 1.234,56 EUR on 25/12/2023. *)
Definition sample_row : row :=
  from_csv [ "25/12/2023"; "10:00:00"; "CET"; "Bob"; "Payment"; "Completed";
             "EUR"; "1.234,56"; "0,00"; "1.234,56"; "a@example.org";
             "b@example.org"; "TX1"; ""; "Title"; ""; ""; "REF1"; ""; "";
             ""; "Subj"; "Note"; "Credit"; "" ].

(** The row with one field replaced. *)
Definition with_field (i : nat) (v : pyval) (r : row) : row := <[i := v]> r.

(** The process in the C locale. *)
Definition c_process : process := {| lc_numeric := "C" |}.

(** The sample row with an ISO date in the Date field. *)
Definition iso_date_row : row := with_field 0 (PStr "2023-12-25") sample_row.

(** The sample row cut after the Note field: 23 fields. *)
Definition row_of_23 : row := firstn 23 sample_row.

(** Note "N", an empty Subject and no Item Title. *)
Definition untitled_row : row :=
  with_field 14 PNone (with_field 21 (PStr "") (with_field 22 (PStr "N") sample_row)).

(** Rows of the [csv] reader with an empty Item Title, with and without
    a Subject and a Note. *)
Definition empty_title_fields (subject note : string) : list string :=
  [ "25/12/2023"; "10:00:00"; "CET"; "Bob"; "Payment"; "Completed";
    "EUR"; "10,50"; "0,00"; "10,50"; "a@example.org"; "b@example.org";
    "TX2"; ""; ""; ""; ""; ""; ""; ""; ""; subject; note; "Credit"; "" ].

(** ** Texts of digits, and a sample of files *)

(** Every character of the text is in the class. *)
Fixpoint all_chars (p : cls) (s : string) : bool :=
  match s with
  | EmptyString => true
  | String c s' => p c && all_chars p s'
  end.

(** A text of decimal digits. *)
Definition digits_only (s : string) : bool := all_chars is_digit s.

(** A character that [float] neither strips nor takes for a digit
    separator. *)
Definition plain_char : cls :=
  λ c, negb (is_float_space c) && negb (bool_decide (c = "_"%char)).

(** The sign written before an amount. *)
Definition sign_text (neg : bool) : string := if neg then "-" else "".

(** A reader for lines that carry no quotes: the cells of a line are
    what stands between its commas; the end of line is dropped. *)
Fixpoint split_commas (s : string) : list string :=
  match s with
  | EmptyString => [EmptyString]
  | String c s' =>
      if decide (c = ","%char) then EmptyString :: split_commas s'
      else if decide (c = "010"%char) then split_commas s'
      else
        match split_commas s' with
        | x :: xs => String c x :: xs
        | [] => [String c EmptyString]
        end
  end.

(** One file, "statement.csv", of a header and two payments. *)
Definition sample_files : Files := {|
  readlines := λ fin enc,
    if decide (fin = "statement.csv")
    then Ok [ "Date,Time,Currency";
              "25/12/2023,10:00:00,EUR";
              "26/12/2023,11:30:00,USD" ]
    else Raise OSError;
  csv_reader := λ lines, split_commas <$> lines
|}.

(** The process in the C locale with UTF-8. *)
Definition utf8_process : process := {| lc_numeric := "C.utf8" |}.

(** The process in the German locale. *)
Definition german_process : process := {| lc_numeric := "de_DE.UTF-8" |}.

(** Settings with an account and a currency, and nothing else. *)
Definition sample_settings : gmap string string :=
  <["account_id" := "acct"]> (<["currency" := "EUR"]> ∅).

(** * Properties *)

(** ** The runtime functions on a few inputs *)

Example replace_examples :
  replace "1.234,56" "." "" = "1234,56"
  ∧ replace "aaa" "aa" "b" = "ba"
  ∧ replace "abc" "" "-" = "-a-b-c-".
Proof. repeat split; reflexivity. Qed.

Example strip_examples :
  strip "  Date " = "Date" ∧ strip "Time Zone" = "Time Zone" ∧ strip "   " = "".
Proof. repeat split; reflexivity. Qed.

Example float_examples :
  float "1234.56" = Ok (FFinite false 123456 (-2))
  ∧ float " -1_0.5e-3 " = Ok (FFinite true 105 (-4))
  ∧ float ".5" = Ok (FFinite false 5 (-1))
  ∧ float "-Inf" = Ok (FInf true)
  ∧ float "1e" = Raise ValueError
  ∧ float "1__0" = Raise ValueError
  ∧ float "12,5" = Raise ValueError
  ∧ float "" = Raise ValueError.
Proof. repeat split; reflexivity. Qed.

Example strptime_examples :
  strptime (PStr " 5/03/2023") date_format = Ok {| year := 2023; month := 3; day := 5 |}
  ∧ strptime (PStr "29/02/2024") date_format = Ok {| year := 2024; month := 2; day := 29 |}
  ∧ strptime (PStr "29/02/2023") date_format = Raise ValueError
  ∧ strptime (PStr "35/12/2023") date_format = Raise ValueError
  ∧ strptime (PStr "25/12/2023 ") date_format = Raise ValueError
  ∧ strptime (PStr "01/01/0000") date_format = Raise ValueError
  ∧ strptime PNone date_format = Raise TypeError.
Proof. repeat split; reflexivity. Qed.

(** ** Subscripts and the header positions *)

Lemma getitem_Ok {A : Type} (l : list A) (i : nat) (x : A) :
  getitem l i = Ok x ↔ l !! i = Some x.
Proof.
  unfold getitem. destruct (l !! i); split; intros E; inversion E; reflexivity.
Qed.

Lemma getitem_short {A : Type} (l : list A) (i : nat) :
  length l ≤ i → getitem l i = Raise IndexError.
Proof.
  intros Hlen. unfold getitem. by rewrite (lookup_ge_None_2 l i Hlen).
Qed.

Lemma getitem_field (r : row) (i : nat) :
  i < length r → getitem r i = Ok (field r i).
Proof.
  intros Hlen. unfold getitem, field.
  destruct (lookup_lt_is_Some_2 r i Hlen) as [v Hv]. by rewrite Hv.
Qed.

Lemma field_lookup (r : row) (i : nat) :
  i < length r → r !! i = Some (field r i).
Proof.
  intros Hlen. unfold field.
  destruct (lookup_lt_is_Some_2 r i Hlen) as [v Hv]. by rewrite Hv.
Qed.

Lemma header_positions :
  index valid_header "Date" = Ok 0 ∧ index valid_header "Name" = Ok 3
  ∧ index valid_header "Type" = Ok 4 ∧ index valid_header "Currency" = Ok 6
  ∧ index valid_header "Gross" = Ok 7
  ∧ index valid_header "To Email Address" = Ok 11
  ∧ index valid_header "Transaction ID" = Ok 12
  ∧ index valid_header "Item Title" = Ok 14
  ∧ index valid_header "Reference Txn ID" = Ok 17
  ∧ index valid_header "Subject" = Ok 21 ∧ index valid_header "Note" = Ok 22.
Proof. repeat split; reflexivity. Qed.

Lemma py_eq_str_true (v : pyval) (s : string) :
  py_eq_str v s = true ↔ v = PStr s.
Proof.
  destruct v as [|t]; simpl.
  - split; discriminate.
  - rewrite bool_decide_eq_true. split; [by intros -> | by intros [= ->]].
Qed.

(** ** The row filter *)

Lemma filterM_sublist {A : Type} (p : A → result bool) (l out : list A) :
  filterM p l = Ok out → sublist out l.
Proof.
  revert out. induction l as [|x l IH]; intros out E; simpl in E.
  - injection E as <-. constructor.
  - destruct (p x) as [b|e]; [|discriminate]. simpl in E.
    destruct (filterM p l) as [k|e]; [|discriminate]. simpl in E.
    injection E as <-. destruct b; constructor; by apply IH.
Qed.

Section Row_filter.
Variable cur : string.

(** The condition of the comprehension, on a row that has a Currency
    field, is the predicate [keeps]. *)
Lemma filter_condition (r : row) :
  6 < length r →
  (c ← getitem r 6;
   if py_eq_str c cur
   then t ← getitem r 4; Ok (negb (py_eq_str t excluded_type))
   else Ok false) = Ok (keeps cur r).
Proof.
  intros Hlen. unfold keeps.
  rewrite (getitem_field r 6) by lia. simpl.
  destruct (py_eq_str (field r 6) cur); [|reflexivity].
  rewrite (getitem_field r 4) by lia. reflexivity.
Qed.

Lemma rows_of_unfold (rs : list row) :
  rows_of cur rs =
  filterM (λ r,
    c ← getitem r 6;
    if py_eq_str c cur
    then t ← getitem r 4; Ok (negb (py_eq_str t excluded_type))
    else Ok false) rs.
Proof. reflexivity. Qed.

Lemma rows_of_filter (rs : list row) :
  Forall (λ r : row, 6 < length r) rs →
  rows_of cur rs = Ok (List.filter (keeps cur) rs).
Proof.
  rewrite rows_of_unfold.
  induction 1 as [|r rs Hr _ IH]; [reflexivity|].
  cbn [filterM List.filter]. rewrite (filter_condition r Hr). simpl.
  rewrite IH. simpl. by destruct (keeps cur r).
Qed.

Lemma filter_is_sublist {A : Type} (f : A → bool) (l : list A) :
  sublist (List.filter f l) l.
Proof.
  induction l as [|x l IH]; simpl; [constructor|].
  destruct (f x); by constructor.
Qed.

Lemma keeps_spec (r : row) :
  6 < length r →
  keeps cur r = true ↔ r !! 6 = Some (PStr cur) ∧ r !! 4 ≠ Some (PStr excluded_type).
Proof.
  intros Hlen. unfold keeps.
  rewrite (field_lookup r 6), (field_lookup r 4) by lia.
  rewrite andb_true_iff, negb_true_iff, py_eq_str_true.
  rewrite <- not_true_iff_false, py_eq_str_true.
  split; intros [H1 H2]; split; congruence.
Qed.

(** C1 -- On data rows that all have a Currency field, [rows] returns
    exactly the rows whose Currency (position 6 of the header) is the
    configured currency and whose Type (position 4) is not
    "Bank Deposit to PP Account", in their original order: the result is
    the filtered list, a subsequence of the input, and holds a row just
    when the input holds it and it meets both conditions. *)
Theorem rows_exact_subsequence (rs : list row) :
  Forall (λ r : row, 6 < length r) rs →
  index valid_header "Currency" = Ok 6 ∧ index valid_header "Type" = Ok 4
  ∧ ∃ out, rows_of cur rs = Ok out
      ∧ out = List.filter (keeps cur) rs
      ∧ sublist out rs
      ∧ ∀ r, r ∈ out ↔
          r ∈ rs ∧ r !! 6 = Some (PStr cur) ∧ r !! 4 ≠ Some (PStr excluded_type).
Proof.
  intros Hrs. do 2 (split; [reflexivity|]).
  exists (List.filter (keeps cur) rs). split; [by apply rows_of_filter|].
  split; [reflexivity|]. split; [apply filter_is_sublist|].
  intros r. rewrite list_elem_of_In, filter_In, <- list_elem_of_In.
  assert (Hlen : r ∈ rs → 6 < length r)
    by (intros Hin; by apply (proj1 (Forall_forall _ _) Hrs)).
  split; intros [Hin Hk]; (split; [done|]); apply keeps_spec; auto.
Qed.

End Row_filter.

(** ** Settings: [parse_bool] and [get_parser] *)

Section Settings.
Context `{Files}.

Lemma parse_bool_cases (value : string) :
  (value ∈ ["True"; "true"; "1"] ∧ parse_bool value = Ok true)
  ∨ ((value ∉ ["True"; "true"; "1"]) ∧ value ∈ ["False"; "false"; "0"]
     ∧ parse_bool value = Ok false)
  ∨ ((value ∉ ["True"; "true"; "1"]) ∧ (value ∉ ["False"; "false"; "0"])
     ∧ parse_bool value = Raise ValueError).
Proof.
  unfold parse_bool.
  destruct (decide (value ∈ ["True"; "true"; "1"])) as [Ht|Ht]; [by left|].
  destruct (decide (value ∈ ["False"; "false"; "0"])) as [Hf|Hf]; right; [left|right]; done.
Qed.

Lemma elem_of_three (x a b c : string) :
  x ∈ [a; b; c] ↔ x = a ∨ x = b ∨ x = c.
Proof. rewrite !elem_of_cons, elem_of_nil. tauto. Qed.

(** C9 -- [parse_bool] gives true exactly on "True", "true" and "1", false
    exactly on "False", "false" and "0", and raises [ValueError] on every
    other string; [get_parser] calls it while it gathers the keyword
    arguments, so a bad [analyze] setting makes [get_parser] raise before
    a parser is built or a file read, whatever the other settings are. *)
Theorem parse_bool_exact (value : string) :
  (parse_bool value = Ok true ↔ value = "True" ∨ value = "true" ∨ value = "1")
  ∧ (parse_bool value = Ok false ↔ value = "False" ∨ value = "false" ∨ value = "0")
  ∧ (parse_bool value = Raise ValueError ↔
       ¬ (value = "True" ∨ value = "true" ∨ value = "1"
          ∨ value = "False" ∨ value = "false" ∨ value = "0"))
  ∧ (∀ e, parse_bool value = Raise e → e = ValueError)
  ∧ (∀ (settings : gmap string string) (fin : string),
       settings !! "analyze" = Some value →
       parse_bool value = Raise ValueError →
       get_parser settings fin = Raise ValueError).
Proof.
  destruct (parse_bool_cases value) as [[Ht E]|[(Ht & Hf & E)|(Ht & Hf & E)]];
    rewrite E; rewrite elem_of_three in Ht; try rewrite elem_of_three in Hf.
  - assert (Hn : ¬ (value = "False" ∨ value = "false" ∨ value = "0"))
      by (destruct Ht as [->|[->| ->]]; intros [?|[?|?]]; discriminate).
    repeat split; try done; try discriminate; tauto.
  - repeat split; try done; try discriminate; tauto.
  - repeat split; try done; try discriminate; try tauto.
    + by intros e [= <-].
    + intros settings fin Hlook _. unfold get_parser.
      destruct (decide (settings = ∅)) as [->|_].
      * by rewrite lookup_empty in Hlook.
      * rewrite Hlook, E. reflexivity.
Qed.

End Settings.

(** ** Header validation *)

Section Validation.
Context `{Files}.

Lemma head_cons {A : Type} (x : A) (l : list A) : Iter.head (x :: l) = Ok x.
Proof. reflexivity. Qed.

Lemma head_nil {A : Type} : Iter.head (@nil A) = Raise IndexError.
Proof. reflexivity. Qed.

Lemma validate_cases (self : PayPalStatementParser) :
  match reader self with
  | [] => validate self = Raise IndexError
  | h :: _ =>
      validate self =
      if decide (valid_header ≠ strip <$> h) then Raise ValueError else Ok ()
  end.
Proof.
  unfold validate, header. destruct (reader self) as [|h rest].
  - by rewrite head_nil.
  - by rewrite head_cons.
Qed.

(** C7 -- [validate] succeeds exactly when the file has a header row whose
    stripped cells are, one by one, the 25 entries of [valid_header], the
    last of which is the empty name; with no row at all it raises
    [IndexError], with any other header [ValueError].  [__init__] does not
    call it: a parser is built from any readable file, and [rows] drops
    the first row without looking at it. *)
Theorem validate_exact (self : PayPalStatementParser) :
  (validate self = Ok () ↔
     ∃ h rest, reader self = h :: rest ∧ strip <$> h = valid_header)
  ∧ (reader self = [] → validate self = Raise IndexError)
  ∧ (∀ h rest, reader self = h :: rest → strip <$> h ≠ valid_header →
       validate self = Raise ValueError)
  ∧ length valid_header = 25 ∧ last valid_header = Some ""
  ∧ (∀ fin a c enc loc an ls, readlines fin enc = Ok ls →
       init fin a c enc loc an =
       Ok {| account_id := a; currency := c; locale := loc; encoding := enc;
             analyze := an; lines := ls |})
  ∧ (∀ h rest, reader self = h :: rest →
       rows self = rows_of (currency self) (from_csv <$> rest)).
Proof.
  pose proof (validate_cases self) as Hv.
  split; [|split; [|split; [|split; [|split; [|split]]]]].
  - destruct (reader self) as [|h rest]; rewrite Hv.
    + split; [discriminate|]. by intros (h & rest & [=] & _).
    + destruct (decide (valid_header ≠ strip <$> h)) as [Hne|Heq].
      * split; [discriminate|]. intros (h' & rest' & [= <- <-] & Heq). by destruct Hne.
      * split; [|done]. intros _. exists h, rest. split; [done|].
        symmetry. by apply dec_stable.
  - intros E. by rewrite E in Hv.
  - intros h rest E Hne. rewrite E in Hv. rewrite Hv.
    destruct (decide (valid_header ≠ strip <$> h)) as [_|Heq]; [done|].
    destruct Hne. symmetry. by apply dec_stable.
  - reflexivity.
  - reflexivity.
  - intros fin a c enc loc an ls E. unfold init. by rewrite E.
  - intros h rest E. unfold rows. by rewrite E.
Qed.

(** Every row [rows] returns is a row of the reader, its fields strings. *)
Lemma rows_from_reader (self : PayPalStatementParser) (out : list row) :
  rows self = Ok out →
  ∀ r, r ∈ out → ∃ fields, fields ∈ reader self ∧ r = from_csv fields.
Proof.
  unfold rows. rewrite rows_of_unfold. intros E r Hr.
  apply filterM_sublist in E.
  pose proof (elem_of_sublist _ _ _ Hr E) as Hin.
  apply list_elem_of_fmap in Hin as (fields & Heq & Hin).
  exists fields. split; [|done].
  unfold Iter.drop in Hin. eapply elem_of_sublist; [done|apply sublist_drop].
Qed.

End Validation.

(** ** The scoped locale *)

Section Scoped_locale.
Context `{LocaleDB}.

(** Whatever the body does, and whether or not the requested locale is
    installed, the statement ends in the setting it started from, as long
    as that setting survives the trip through [getlocale] and
    [setlocale]. *)
Lemma scoped_setlocale_restores {A : Type} (loc : option string)
    (body : string → M A) (st : process) :
  restorable st →
  snd (scoped_setlocale loc body st) = st.
Proof.
  intros Hres. destruct st as [cur].
  unfold restorable, restore_request in Hres. simpl in Hres.
  unfold scoped_setlocale, try_finally, mbind, M_bind, getlocale, setlocale_pair, setlocale, mret, M_ret.
  simpl. destruct loc as [name|]; simpl.
  - destruct (resolve name) as [c|]; simpl.
    + destruct (body c {| lc_numeric := c |}) as [[a|e] st2]; simpl;
        rewrite Hres; reflexivity.
    + rewrite Hres. reflexivity.
  - destruct (body cur {| lc_numeric := cur |}) as [[a|e] st2]; simpl;
      rewrite Hres; reflexivity.
Qed.

(** The parse itself leaves the setting alone. *)
Lemma locale_atof_state (s : string) (st : process) :
  snd (locale_atof s st) = st.
Proof.
  unfold locale_atof, delocalize, localeconv, lift, mbind, M_bind, mret, M_ret.
  reflexivity.
Qed.

Lemma locale_atof_value (s : string) (st : process) :
  fst (locale_atof s st) = float (delocalize_with (localeconv_of (lc_numeric st)) s).
Proof. reflexivity. Qed.

(** What [atof] returns: the parse under the locale in effect, or
    [locale.Error] when the configured locale is not installed. *)
Lemma atof_value (s : string) (loc : option string) (st : process) :
  restorable st →
  atof s loc st =
  (match effective_locale loc st with
   | Some c => float (delocalize_with (localeconv_of c) s)
   | None => Raise LocaleError
   end, st).
Proof.
  intros Hres. destruct st as [cur].
  unfold restorable, restore_request in Hres. simpl in Hres.
  unfold atof, scoped_setlocale, try_finally, mbind, M_bind, getlocale, setlocale_pair, setlocale,
    mret, M_ret, effective_locale, locale_atof, delocalize, localeconv, lift.
  simpl. destruct loc as [name|]; simpl.
  - destruct (resolve name) as [c|]; simpl.
    + destruct (float _); simpl; rewrite Hres; reflexivity.
    + rewrite Hres. reflexivity.
  - destruct (float _); simpl; rewrite Hres; reflexivity.
Qed.

(** From a setting that survives the trip through [getlocale] and
    [setlocale], a call of [atof] ends in the setting it started from,
    whether it returned a number or raised; during the call the text is
    read under the requested locale. *)
Theorem atof_restores_locale (s : string) (loc : option string) (st : process) :
  restorable st →
  ∀ r st', atof s loc st = (r, st') →
    st' = st
    ∧ match effective_locale loc st with
      | Some c => r = fst (locale_atof s {| lc_numeric := c |})
      | None => r = Raise LocaleError
      end.
Proof.
  intros Hres r st' E. rewrite (atof_value s loc st Hres) in E.
  injection E as <- <-. split; [reflexivity|].
  destruct (effective_locale loc st); reflexivity.
Qed.

End Scoped_locale.

(** ** The record mapper *)

(** Replacing a single character. *)
Lemma replace_from_char (a : ascii) (new : string) (c : ascii) (s : string) :
  replace_from (String a EmptyString) new 0 (String c s) =
  if decide (c = a)
  then new +:+ replace_from (String a EmptyString) new 0 s
  else String c (replace_from (String a EmptyString) new 0 s).
Proof.
  simpl. destruct (ascii_dec a c) as [->|Hne].
  - rewrite decide_True by done. by destruct s.
  - by rewrite decide_False by congruence.
Qed.

(** The three replacements of [parse_record], one after the other, do
    what [normalized] does in one pass. *)
Lemma replace_chain_normalized (g : string) :
  replace (replace (replace g " " "") "." "") "," "." = normalized g.
Proof.
  unfold replace. induction g as [|c g IH]; [reflexivity|].
  rewrite replace_from_char. cbn [normalized].
  destruct (decide (c = " "%char)) as [->|Hsp].
  { rewrite decide_True by (by left). exact IH. }
  rewrite replace_from_char.
  destruct (decide (c = "."%char)) as [->|Hdot].
  { rewrite decide_True by (by right). exact IH. }
  rewrite decide_False by (intros [?|?]; done).
  rewrite replace_from_char.
  destruct (decide (c = ","%char)) as [->|Hcomma]; simpl; by rewrite IH.
Qed.

Section Mapper.
Context `{LocaleDB}.
Variable self : PayPalStatementParser.

Lemma bind_lift_Ok {A B : Type} (a : A) (k : A → M B) (st : process) :
  (lift (Ok a) ≫= k) st = k a st.
Proof. reflexivity. Qed.

Lemma bind_lift {A B : Type} (r : result A) (k : A → M B) (st : process) :
  (lift r ≫= k) st =
  match r with
  | Ok a => k a st
  | Raise e => (Raise e, st)
  end.
Proof. by destruct r. Qed.

Lemma bind_lift_Raise {A B : Type} (e : exn) (k : A → M B) (st : process) :
  (lift (Raise e) ≫= k) st = (Raise e, st).
Proof. reflexivity. Qed.

(** A row too short for the Note field stops the mapper at its first
    subscript. *)
Lemma parse_record_short (r : row) (st : process) :
  length r ≤ 22 → parse_record self r st = (Raise IndexError, st).
Proof.
  intros Hlen. unfold parse_record.
  destruct header_positions as (E0 & E3 & E4 & E6 & E7 & E11 & E12 & E14 & E17 & E21 & E22).
  rewrite E0, E3, E7, E11, E12, E14, E17, E21, E22.
  rewrite !bind_lift_Ok. rewrite (getitem_short r 22 Hlen).
  apply bind_lift_Raise.
Qed.

(** On a row with the 23 fields the mapper reads, the mapper is: parse
    the date, prepare and parse the amount, build the line. *)
Lemma parse_record_unfold (r : row) (st : process) :
  22 < length r →
  parse_record self r st =
  (d ← lift (strptime (field r 0) date_format);
   text ← lift (gross_text (field r 7));
   a ← atof text (locale self);
   mret (mapped r d a)) st.
Proof.
  intros Hlen. unfold parse_record.
  destruct header_positions as (E0 & E3 & E4 & E6 & E7 & E11 & E12 & E14 & E17 & E21 & E22).
  rewrite E0, E3, E7, E11, E12, E14, E17, E21, E22.
  rewrite !bind_lift_Ok.
  rewrite (getitem_field r 22), bind_lift_Ok by lia.
  rewrite (getitem_field r 21), bind_lift_Ok by lia.
  rewrite (getitem_field r 14), bind_lift_Ok by lia.
  rewrite (getitem_field r 12), bind_lift_Ok by lia.
  rewrite (getitem_field r 0), bind_lift_Ok by lia.
  rewrite !bind_lift.
  destruct (strptime (field r 0) date_format) as [d|e]; [|reflexivity].
  cbv beta.
  rewrite (getitem_field r 3), bind_lift_Ok by lia.
  rewrite (getitem_field r 11), bind_lift_Ok by lia.
  rewrite (getitem_field r 17), bind_lift_Ok by lia.
  rewrite (getitem_field r 7), bind_lift_Ok by lia.
  rewrite !bind_lift. unfold gross_text.
  destruct (field r 7) as [|g]; [reflexivity|].
  cbv beta. rewrite replace_chain_normalized. reflexivity.
Qed.

End Mapper.

Section Mapper_results.
Context `{LocaleDB}.
Variable self : PayPalStatementParser.


(** A line comes out only that way. *)
Lemma parse_record_Ok (r : row) (st st' : process) (line : StatementLine.t) :
  parse_record self r st = (Ok line, st') →
  22 < length r
  ∧ ∃ d text a,
      strptime (field r 0) date_format = Ok d
      ∧ gross_text (field r 7) = Ok text
      ∧ atof text (locale self) st = (Ok a, st')
      ∧ line = mapped r d a.
Proof.
  intros E. destruct (le_lt_dec (length r) 22) as [Hshort|Hlen].
  { rewrite parse_record_short in E by done. discriminate. }
  split; [done|]. rewrite parse_record_unfold in E by done.
  rewrite bind_lift in E.
  destruct (strptime (field r 0) date_format) as [d|e]; [|discriminate].
  cbv beta in E. rewrite bind_lift in E.
  destruct (gross_text (field r 7)) as [text|e]; [|discriminate].
  cbv beta in E. unfold mbind, M_bind in E.
  destruct (atof text (locale self) st) as [[a|e] st2] eqn:Ha; [|discriminate].
  injection E as <- <-. by exists d, text, a.
Qed.

(** A failed date ends the mapper with [strptime]'s exception. *)
Lemma parse_record_bad_date (r : row) (st : process) (e : exn) :
  22 < length r →
  strptime (field r 0) date_format = Raise e →
  parse_record self r st = (Raise e, st).
Proof.
  intros Hlen Hd. rewrite parse_record_unfold by done.
  by rewrite bind_lift, Hd.
Qed.

(** C2 -- The memo of the line made from a row (of 25 fields, or of any
    length the mapper accepts) follows the precedence: the Item Title when it is not [None], else the Subject
    when it is not [None], else the Note when it is not [None], else the
    empty string; an empty string counts as present.  So Note "N",
    Subject "" and no Item Title give the memo "". *)
Theorem memo_by_precedence (r : row) (st st' : process) (line : StatementLine.t) :
  parse_record self r st = (Ok line, st') →
  StatementLine.memo line = memo_precedence r
  ∧ (is_not_None (field r 14) = true → StatementLine.memo line = field r 14)
  ∧ (field r 14 = PNone → is_not_None (field r 21) = true →
       StatementLine.memo line = field r 21)
  ∧ (field r 14 = PNone → field r 21 = PNone → is_not_None (field r 22) = true →
       StatementLine.memo line = field r 22)
  ∧ (field r 14 = PNone → field r 21 = PNone → field r 22 = PNone →
       StatementLine.memo line = PStr "")
  ∧ (r !! 22 = Some (PStr "N") → r !! 21 = Some (PStr "") → r !! 14 = Some PNone →
       StatementLine.memo line = PStr "").
Proof.
  intros E. apply parse_record_Ok in E as (_ & d & text & a & _ & _ & _ & ->).
  cbn [mapped StatementLine.memo]. unfold memo_precedence.
  repeat split.
  - by intros ->.
  - by intros -> ->.
  - by intros -> -> ->.
  - by intros -> -> ->.
  - unfold field. by intros -> -> ->.
Qed.

(** C10 -- The fields of a row of the [csv] reader (25 of them in a
    well-formed file) are all strings, so
    none of the three tests of the mapper fails and the memo of the line
    is the Item Title as it stands, empty or not; Note and Subject have
    no part in it: two such rows with the same Item Title get the same
    memo. *)
Theorem csv_memo_is_item_title (fields : list string) (st st' : process)
    (line : StatementLine.t) :
  parse_record self (from_csv fields) st = (Ok line, st') →
  Forall (λ v, is_not_None v = true) (from_csv fields)
  ∧ (∃ title, fields !! 14 = Some title ∧ StatementLine.memo line = PStr title)
  ∧ (∀ fields2 st2 st2' line2,
       parse_record self (from_csv fields2) st2 = (Ok line2, st2') →
       fields2 !! 14 = fields !! 14 →
       StatementLine.memo line2 = StatementLine.memo line).
Proof.
  intros E.
  assert (Hmemo : ∀ fs s s' l, parse_record self (from_csv fs) s = (Ok l, s') →
            ∃ title, fs !! 14 = Some title ∧ StatementLine.memo l = PStr title).
  { intros fs s s' l El.
    apply parse_record_Ok in El as (Hl & d & text & a & _ & _ & _ & ->).
    unfold from_csv in Hl. rewrite length_fmap in Hl.
    destruct (lookup_lt_is_Some_2 fs 14 ltac:(lia)) as [title Ht].
    exists title. split; [done|].
    cbn [mapped StatementLine.memo]. unfold memo_precedence, field, from_csv.
    by rewrite list_lookup_fmap, Ht. }
  split; [|split].
  - unfold from_csv. apply Forall_fmap, Forall_true. done.
  - by apply (Hmemo fields st st' line).
  - intros fields2 st2 st2' line2 E2 H14.
    destruct (Hmemo _ _ _ _ E) as (t1 & Ht1 & ->).
    destruct (Hmemo _ _ _ _ E2) as (t2 & Ht2 & ->). congruence.
Qed.

End Mapper_results.

(** ** Rows that are too short, and the run as a whole *)

Section Runs.
Context `{LocaleDB}.
Variable self : PayPalStatementParser.

(** The filter fails as soon as one row has no Currency field. *)
Lemma rows_of_short (cur : string) (rs : list row) :
  Exists (λ r : row, length r ≤ 6) rs → rows_of cur rs = Raise IndexError.
Proof.
  rewrite rows_of_unfold. induction rs as [|r rs IH]; intros Hex.
  - by apply Exists_nil in Hex.
  - cbn [filterM]. destruct (le_lt_dec (length r) 6) as [Hshort|Hlen].
    + by rewrite (getitem_short r 6 Hshort).
    + rewrite (filter_condition cur r Hlen). simpl.
      apply Exists_cons in Hex as [Hr|Hrs]; [lia|]. by rewrite (IH Hrs).
Qed.

(** The rows the filter returns satisfy its condition, so they have a
    Currency field. *)
Lemma rows_of_kept (cur : string) (rs out : list row) :
  rows_of cur rs = Ok out →
  Forall (λ r : row, 6 < length r ∧ keeps cur r = true) out.
Proof.
  rewrite rows_of_unfold. revert out.
  induction rs as [|r rs IH]; intros out E; cbn [filterM] in E.
  - injection E as <-. constructor.
  - destruct (le_lt_dec (length r) 6) as [Hshort|Hlen].
    { by rewrite (getitem_short r 6 Hshort) in E. }
    rewrite (filter_condition cur r Hlen) in E. simpl in E.
    destruct (filterM _ rs) as [k|e]; [|discriminate]. simpl in E.
    injection E as <-. specialize (IH k eq_refl).
    destruct (keeps cur r) eqn:Hk; [constructor|]; done.
Qed.

(** One failing record ends the run with that record's exception. *)
Lemma parse_records_abort (pre post : list row) (r : row) (st st1 st2 : process)
    (lines : list StatementLine.t) (e : exn) :
  parse_records self pre st = (Ok lines, st1) →
  parse_record self r st1 = (Raise e, st2) →
  parse_records self (pre ++ r :: post) st = (Raise e, st2).
Proof.
  revert st lines. induction pre as [|x pre IH]; intros st lines Hpre Hr.
  - injection Hpre as _ <-. cbn [app parse_records]. unfold mbind, M_bind.
    by rewrite Hr.
  - cbn [app parse_records] in Hpre |- *. unfold mbind, M_bind in Hpre |- *.
    destruct (parse_record self x st) as [[l|e'] sx]; [|discriminate].
    fold (@mbind M _) in *.
    destruct (parse_records self pre sx) as [[ls|e'] sp] eqn:Hp; [|discriminate].
    injection Hpre as _ <-.
    by rewrite (IH sx ls Hp Hr).
Qed.

(** A run that ends well mapped every record, one line each, in order. *)
Lemma parse_records_Ok (rs : list row) (st st' : process) (lines : list StatementLine.t) :
  parse_records self rs st = (Ok lines, st') →
  Forall2 (λ r line, ∃ s s', parse_record self r s = (Ok line, s')) rs lines.
Proof.
  revert st lines. induction rs as [|r rs IH]; intros st lines E.
  - injection E as <- _. constructor.
  - cbn [parse_records] in E. unfold mbind, M_bind in E.
    destruct (parse_record self r st) as [[l|e] s1] eqn:Hr; [|discriminate].
    fold (@mbind M _) in *.
    destruct (parse_records self rs s1) as [[ls|e] s2] eqn:Hrs; [|discriminate].
    injection E as <- <-. constructor; [by exists st, s1|by eapply IH].
Qed.

End Runs.

Section Claims_on_runs.
Context `{LocaleDB}.
Variable self : PayPalStatementParser.

Lemma field_app (r extra : row) (i : nat) :
  i < length r → field (r ++ extra) i = field r i.
Proof. intros Hlen. unfold field. by rewrite lookup_app_l. Qed.

Lemma mapped_app (r extra : row) (d : datetime) (a : pyfloat) :
  22 < length r → mapped (r ++ extra) d a = mapped r d a.
Proof.
  intros Hlen. unfold mapped, memo_precedence.
  by rewrite !field_app by lia.
Qed.

(** C6 -- What the code does with rows shorter than the 25 columns.  A
    row with at most 6 fields makes the filter raise [IndexError]; a row
    with at most 22 fields makes the mapper raise [IndexError], which ends
    the run, so no such row ever becomes a line.  Nothing checks the
    length itself: a row of 7 to 22 fields that does not meet the filter's
    condition is dropped like any other, and the fields after the 23rd are
    never read, so rows of 23 or 24 fields are mapped like full rows. *)
Theorem short_row_behaviour (cur : string) :
  (∀ rs : list row, Exists (λ r : row, length r ≤ 6) rs →
     rows_of cur rs = Raise IndexError)
  ∧ (∀ (r : row) st, length r ≤ 22 → parse_record self r st = (Raise IndexError, st))
  ∧ (∀ (pre post : list row) (r : row) st st1 lines,
       length r ≤ 22 →
       parse_records self pre st = (Ok lines, st1) →
       parse_records self (pre ++ r :: post) st = (Raise IndexError, st1))
  ∧ (∀ (rs out : list row) st st' lines,
       rows_of cur rs = Ok out →
       parse_records self out st = (Ok lines, st') →
       Forall (λ r : row, 23 ≤ length r) out ∧ length lines = length out)
  ∧ (∀ r : row, 6 < length r → keeps cur r = false → rows_of cur [r] = Ok [])
  ∧ (∀ (r extra : row) st, 22 < length r →
       parse_record self (r ++ extra) st = parse_record self r st).
Proof.
  split; [|split; [|split; [|split; [|split]]]].
  - intros rs Hex. by apply rows_of_short.
  - intros r st Hlen. by apply parse_record_short.
  - intros pre post r st st1 lines Hlen Hpre.
    eapply parse_records_abort; [done|]. by apply parse_record_short.
  - intros rs out st st' lines _ Hrun.
    apply parse_records_Ok in Hrun. split.
    + induction Hrun as [|r line rs' ls (s & s' & E) _ IH]; constructor; [|done].
      apply parse_record_Ok in E as [Hlen _]. lia.
    + symmetry. by eapply Forall2_length.
  - intros r Hlen Hk. rewrite rows_of_filter by (by constructor).
    simpl. by rewrite Hk.
  - intros r extra st Hlen.
    rewrite !parse_record_unfold by (rewrite ?length_app; lia).
    rewrite (field_app r extra 0), (field_app r extra 7) by lia.
    rewrite !bind_lift.
    destruct (strptime (field r 0) date_format) as [d|e]; [|done]. cbv beta.
    rewrite !bind_lift.
    destruct (gross_text (field r 7)) as [text|e]; [|done]. cbv beta.
    unfold mbind, M_bind.
    destruct (atof text (locale self) st) as [[a|e] s2]; [|done].
    unfold mret, M_ret. by rewrite mapped_app.
Qed.


End Claims_on_runs.

(** ** The amount *)

Lemma replace_same_char (a : ascii) (s : string) :
  replace s (String a EmptyString) (String a EmptyString) = s.
Proof.
  unfold replace. induction s as [|c s IH]; [reflexivity|].
  rewrite replace_from_char, IH. by destruct (decide (c = a)) as [->|].
Qed.

(** Under a locale that writes numbers with a dot and no grouping,
    [delocalize] changes nothing. *)
Lemma delocalize_plain (conv : lconv) (s : string) :
  decimal_point conv = "." → thousands_sep conv = "" →
  delocalize_with conv s = s.
Proof.
  intros Hd Ht. unfold delocalize_with. rewrite Hd, Ht.
  apply (replace_same_char "."%char).
Qed.

Section Amount.
Context `{LocaleDB}.
Variable self : PayPalStatementParser.

(** A number comes out of [atof] only as the parse under the locale in
    effect. *)
Lemma atof_Ok (s : string) (loc : option string) (st st' : process) (a : pyfloat) :
  atof s loc st = (Ok a, st') →
  ∃ c, effective_locale loc st = Some c
       ∧ float (delocalize_with (localeconv_of c) s) = Ok a.
Proof.
  destruct st as [cur].
  unfold atof, scoped_setlocale, try_finally, mbind, M_bind, getlocale, setlocale_pair, setlocale,
    mret, M_ret, effective_locale, locale_atof, delocalize, localeconv, lift.
  simpl. destruct loc as [name|]; simpl.
  - destruct (resolve name) as [c|]; simpl.
    + destruct (float _) as [x|e] eqn:Hf; simpl;
        destruct (resolve _); simpl; intros [= <- <-] || intros [=].
      by exists c.
    + destruct (resolve _); simpl; intros [=].
  - destruct (float _) as [x|e] eqn:Hf; simpl;
      destruct (resolve _); simpl; intros [= <- <-] || intros [=].
    by exists cur.
Qed.

(** What the code computes for the amount of a line: the Gross field
    with its spaces and dots removed and its commas turned into dots, and
    that text read by [locale.atof] under the locale in effect, which
    removes the locale's grouping and turns its decimal point into a dot
    once more before [float] reads the number.  Only under a locale that
    writes numbers with a dot and no grouping is the second pass idle and
    the amount the number the prepared text denotes. *)
Theorem amount_from_gross (r : row) (st st' : process) (line : StatementLine.t) :
  parse_record self r st = (Ok line, st') →
  (∃ g c,
     r !! 7 = Some (PStr g)
     ∧ replace (replace (replace g " " "") "." "") "," "." = normalized g
     ∧ effective_locale (locale self) st = Some c
     ∧ float (delocalize_with (localeconv_of c) (normalized g))
       = Ok (StatementLine.amount line)
     ∧ (decimal_point (localeconv_of c) = "." →
        thousands_sep (localeconv_of c) = "" →
        float (normalized g) = Ok (StatementLine.amount line)
        ∧ (g = "1.234,56" → StatementLine.amount line = FFinite false 123456 (-2))
        ∧ (g = "10,50" → StatementLine.amount line = FFinite false 1050 (-2))))
  ∧ normalized "1.234,56" = "1234.56" ∧ normalized "10,50" = "10.50"
  ∧ (∃ q, float_to_Q (FFinite false 123456 (-2)) = Some q ∧ Qeq q (123456 # 100))
  ∧ (∃ q, float_to_Q (FFinite false 1050 (-2)) = Some q ∧ Qeq q (1050 # 100)).
Proof.
  intros E. split; [|split; [reflexivity|split; [reflexivity|split]]].
  - apply parse_record_Ok in E as (Hlen & d & text & a & _ & Hg & Ha & ->).
    unfold gross_text in Hg. rewrite (field_lookup r 7) by lia.
    destruct (field r 7) as [|g]; [discriminate|]. injection Hg as <-.
    apply atof_Ok in Ha as (c & Hc & Hf).
    exists g, c. split; [done|]. split; [apply replace_chain_normalized|].
    split; [done|]. split; [done|].
    intros Hd Ht. rewrite delocalize_plain in Hf by done.
    cbn [mapped StatementLine.amount]. split; [done|].
    split; intros ->; vm_compute in Hf; by injection Hf as <-.
  - eexists. split; [reflexivity|]. vm_compute. reflexivity.
  - eexists. split; [reflexivity|]. vm_compute. reflexivity.
Qed.

End Amount.

(** ** The date *)

Lemma first_some_Some {A B : Type} (f : A → option B) (l : list A) (b : B) :
  first_some f l = Some b → ∃ x, x ∈ l ∧ f x = Some b.
Proof.
  induction l as [|x l IH]; simpl; [discriminate|].
  destruct (f x) as [b'|] eqn:Hx.
  - intros [= <-]. exists x. split; [left|done].
  - intros E. destruct (IH E) as (y & Hy & Hfy). exists y. split; [by right|done].
Qed.

(** What a sequence of classes took is a prefix of the input, and the
    sequence matches that prefix alone. *)
Lemma match_seq_split (ps : list cls) (s m r : string) :
  match_seq ps s = Some (m, r) →
  s = m +:+ r ∧ match_seq ps m = Some (m, EmptyString).
Proof.
  revert s m r. induction ps as [|p ps IH]; intros s m r; simpl.
  - by intros [= <- <-].
  - destruct s as [|c s]; [discriminate|].
    destruct (p c) eqn:Hp; [|discriminate].
    destruct (match_seq ps s) as [[m' r']|] eqn:Hs; [|discriminate].
    simpl. intros [= <- <-]. destruct (IH _ _ _ Hs) as [-> Hm].
    split; [reflexivity|]. simpl. by rewrite Hp, Hm.
Qed.

(** A sequence that matches a text matches it before any continuation. *)
Lemma match_seq_app (ps : list cls) (m rest : string) :
  match_seq ps m = Some (m, EmptyString) →
  match_seq ps (m +:+ rest) = Some (m, rest).
Proof.
  revert m. induction ps as [|p ps IH]; intros m; simpl.
  - by intros [= <-].
  - destruct m as [|c m]; [discriminate|]. simpl.
    destruct (p c); [|discriminate].
    destruct (match_seq ps m) as [[m' r']|] eqn:Hs; [|discriminate].
    simpl. intros [= -> ->]. by rewrite (IH m Hs).
Qed.

(** The matcher is sound: the texts it returns, put end to end before
    the rest, are the input, and each is matched by its group. *)
Lemma match_groups_sound (gs : list group) (s : string) (ms : list string) (r : string) :
  match_groups gs s = Some (ms, r) →
  s = foldr String.append r ms ∧ Forall2 matches_group gs ms.
Proof.
  revert s ms r. induction gs as [|g gs IH]; intros s ms r; simpl.
  - intros [= <- <-]. split; [reflexivity|constructor].
  - intros E. apply first_some_Some in E as (ps & Hps & E).
    destruct (match_seq ps s) as [[m r1]|] eqn:Hm; [|discriminate]. simpl in E.
    destruct (match_groups gs r1) as [[ms' r']|] eqn:Hg; [|discriminate].
    simpl in E. injection E as <- <-.
    destruct (match_seq_split _ _ _ _ Hm) as [-> Hmm].
    destruct (IH _ _ _ Hg) as [-> Hall].
    split; [reflexivity|]. constructor; [by exists ps|done].
Qed.

Lemma is_char_true (a c : ascii) : is_char a c = true → c = a.
Proof. unfold is_char. by rewrite bool_decide_eq_true. Qed.

(** The characters of a class, found by trying all 256. *)
Ltac enumerate_class c :=
  destruct c as [[] [] [] [] [] [] [] []]; vm_compute;
  first [discriminate | intros _; repeat constructor].

Lemma between_0_1 (c : ascii) :
  between "0" "1" c = true → c ∈ ["0"; "1"]%char.
Proof. enumerate_class c. Qed.

Lemma between_0_2 (c : ascii) :
  between "0" "2" c = true → c ∈ ["0"; "1"; "2"]%char.
Proof. enumerate_class c. Qed.

Lemma between_1_2 (c : ascii) :
  between "1" "2" c = true → c ∈ ["1"; "2"]%char.
Proof. enumerate_class c. Qed.

Lemma between_1_9 (c : ascii) :
  between "1" "9" c = true → c ∈ ["1"; "2"; "3"; "4"; "5"; "6"; "7"; "8"; "9"]%char.
Proof. enumerate_class c. Qed.

Lemma is_digit_enum (c : ascii) :
  is_digit c = true → c ∈ ["0"; "1"; "2"; "3"; "4"; "5"; "6"; "7"; "8"; "9"]%char.
Proof. enumerate_class c. Qed.

Lemma date_format_regex :
  format_regex date_format =
  Some [directive_d; [[is_char "/"]]; directive_m; [[is_char "/"]]; directive_Y].
Proof. reflexivity. Qed.

(** Turns what is known of the characters of a matched text into the
    list of texts it can be. *)
Ltac classify :=
  repeat match goal with
  | H : is_char _ _ = true |- _ => apply is_char_true in H
  | H : between "0" "1" _ = true |- _ => apply between_0_1 in H
  | H : between "0" "2" _ = true |- _ => apply between_0_2 in H
  | H : between "1" "2" _ = true |- _ => apply between_1_2 in H
  | H : between "1" "9" _ = true |- _ => apply between_1_9 in H
  | H : is_digit _ = true |- _ => apply is_digit_enum in H
  end;
  repeat match goal with
  | H : _ ∈ _ :: _ |- _ => apply elem_of_cons in H as [H|H]
  | H : _ ∈ [] |- _ => by apply elem_of_nil in H
  end;
  subst; apply (bool_decide_unpack _); vm_compute; exact I.

(** Opens [match_seq ps d = Some (d, "")] for a sequence of one or two
    classes. *)
Ltac open_seq H d :=
  destruct d as [|?c1 [|?c2 [|?c3 ?d]]]; simpl in H;
  repeat match type of H with
  | context [if ?b then _ else _] => destruct b eqn:?; simpl in H
  end;
  try discriminate.

Lemma day_group_texts (d : string) : matches_group directive_d d → d ∈ day_texts.
Proof.
  intros (ps & Hps & Hm). unfold directive_d in Hps.
  repeat (apply elem_of_cons in Hps as [->|Hps]); [..|by apply elem_of_nil in Hps];
    open_seq Hm d; classify.
Qed.

Lemma month_group_texts (m : string) : matches_group directive_m m → m ∈ month_texts.
Proof.
  intros (ps & Hps & Hm). unfold directive_m in Hps.
  repeat (apply elem_of_cons in Hps as [->|Hps]); [..|by apply elem_of_nil in Hps];
    open_seq Hm m; classify.
Qed.

Lemma slash_group_text (t : string) : matches_group [[is_char "/"]] t → t = "/".
Proof.
  intros (ps & Hps & Hm).
  apply elem_of_cons in Hps as [->|Hps]; [|by apply elem_of_nil in Hps].
  open_seq Hm t. by match goal with H : is_char _ _ = true |- _ =>
    apply is_char_true in H; subst end.
Qed.

Lemma year_group_text (y : string) : matches_group directive_Y y → year_text y.
Proof.
  intros (ps & Hps & Hm).
  apply elem_of_cons in Hps as [->|Hps]; [done|by apply elem_of_nil in Hps].
Qed.

(** Before a slash, the first alternative of [%d] that matches takes
    exactly the day text. *)
Lemma day_alternatives {B : Type} (d rest : string)
    (k : string → string → option B) (v : B) :
  d ∈ day_texts →
  k d (String "/" rest) = Some v →
  first_some (λ ps, '(m, r) ← match_seq ps (d +:+ String "/" rest); k m r)
    directive_d = Some v.
Proof.
  intros Hd Hk. unfold day_texts in Hd.
  repeat (apply elem_of_cons in Hd as [->|Hd]); [..|by apply elem_of_nil in Hd];
    vm_compute; vm_compute in Hk; by rewrite Hk.
Qed.

Lemma month_alternatives {B : Type} (m rest : string)
    (k : string → string → option B) (v : B) :
  m ∈ month_texts →
  k m (String "/" rest) = Some v →
  first_some (λ ps, '(t, r) ← match_seq ps (m +:+ String "/" rest); k t r)
    directive_m = Some v.
Proof.
  intros Hm Hk. unfold month_texts in Hm.
  repeat (apply elem_of_cons in Hm as [->|Hm]); [..|by apply elem_of_nil in Hm];
    vm_compute; vm_compute in Hk; by rewrite Hk.
Qed.

Lemma match_groups_day (gs : list group) (d rest : string) (ms : list string) (r : string) :
  d ∈ day_texts →
  match_groups gs (String "/" rest) = Some (ms, r) →
  match_groups (directive_d :: gs) (d +:+ String "/" rest) = Some (d :: ms, r).
Proof.
  intros Hd Hg. cbn [match_groups].
  apply (day_alternatives d rest
    (λ m r0, '(ms0, r') ← match_groups gs r0; Some (m :: ms0, r'))); [done|].
  by rewrite Hg.
Qed.

Lemma match_groups_month (gs : list group) (m rest : string) (ms : list string) (r : string) :
  m ∈ month_texts →
  match_groups gs (String "/" rest) = Some (ms, r) →
  match_groups (directive_m :: gs) (m +:+ String "/" rest) = Some (m :: ms, r).
Proof.
  intros Hm Hg. cbn [match_groups].
  apply (month_alternatives m rest
    (λ t r0, '(ms0, r') ← match_groups gs r0; Some (t :: ms0, r'))); [done|].
  by rewrite Hg.
Qed.

Lemma match_groups_single (ps : list cls) (gs : list group) (m rest : string)
    (ms : list string) (r : string) :
  match_seq ps m = Some (m, EmptyString) →
  match_groups gs rest = Some (ms, r) →
  match_groups ([ps] :: gs) (m +:+ rest) = Some (m :: ms, r).
Proof.
  intros Hm Hg. cbn [match_groups first_some].
  rewrite (match_seq_app ps m rest Hm). simpl. by rewrite Hg.
Qed.

Lemma append_empty (s : string) : s +:+ "" = s.
Proof.
  induction s as [|c s IH]; [reflexivity|].
  change (String c s +:+ "") with (String c (s +:+ "")). by rewrite IH.
Qed.

(** What [strptime] accepts under [date_format], and what it makes of
    it. *)
Lemma strptime_Ok (s : string) (dt : datetime) :
  strptime (PStr s) date_format = Ok dt ↔
  ∃ d m y,
    s = d +:+ "/" +:+ m +:+ "/" +:+ y
    ∧ d ∈ day_texts ∧ m ∈ month_texts ∧ year_text y
    ∧ make_datetime (int_of_group y) (int_of_group m) (int_of_group d) = Ok dt.
Proof.
  unfold strptime. rewrite date_format_regex. split.
  - destruct (match_groups _ s) as [[ms r]|] eqn:Hg; [|discriminate].
    destruct ms as [|d [|a [|m [|b [|y [|z ms]]]]]]; try discriminate.
    destruct r; [|discriminate]. intros Hdt.
    apply match_groups_sound in Hg as [-> Hall].
    apply Forall2_cons_1 in Hall as [Hd Hall].
    apply Forall2_cons_1 in Hall as [Ha Hall].
    apply Forall2_cons_1 in Hall as [Hm Hall].
    apply Forall2_cons_1 in Hall as [Hb Hall].
    apply Forall2_cons_1 in Hall as [Hy _].
    apply slash_group_text in Ha as ->. apply slash_group_text in Hb as ->.
    exists d, m, y. cbn [foldr]. rewrite append_empty.
    split; [reflexivity|].
    split; [by apply day_group_texts|].
    split; [by apply month_group_texts|].
    split; [by apply year_group_text|done].
  - intros (d & m & y & -> & Hd & Hm & Hy & Hdt).
    assert (Hg : match_groups
              [directive_d; [[is_char "/"]]; directive_m; [[is_char "/"]]; directive_Y]
              (d +:+ "/" +:+ m +:+ "/" +:+ y) = Some ([d; "/"; m; "/"; y], "")).
    { change (d +:+ "/" +:+ m +:+ "/" +:+ y)
        with (d +:+ String "/" (m +:+ String "/" y)).
      apply match_groups_day; [done|].
      apply (match_groups_single [is_char "/"] _ "/"); [reflexivity|].
      apply match_groups_month; [done|].
      apply (match_groups_single [is_char "/"] _ "/"); [reflexivity|].
      rewrite <- (append_empty y) at 1.
      by apply match_groups_single. }
    by rewrite Hg.
Qed.

(** From a string, [strptime] raises nothing but [ValueError]. *)
Lemma strptime_Raise (s : string) (e : exn) :
  strptime (PStr s) date_format = Raise e → e = ValueError.
Proof.
  unfold strptime. rewrite date_format_regex.
  assert (Hmk : ∀ y m d, make_datetime y m d = Raise e → e = ValueError).
  { intros y m d. unfold make_datetime. destruct (_ && _); [discriminate|]. by intros [= <-]. }
  destruct (match_groups _ s) as [[ms r]|]; [|by intros [= <-]].
  destruct ms as [|d [|a [|m [|b [|y [|z ms]]]]]]; try (by intros [= <-]).
  destruct r; [apply Hmk|by intros [= <-]].
Qed.

Lemma make_datetime_Ok (y m d : N) (dt : datetime) :
  make_datetime y m d = Ok dt ↔
  (1 ≤ y ≤ 9999 ∧ 1 ≤ m ≤ 12 ∧ 1 ≤ d ≤ days_in_month y m)%N
  ∧ dt = {| year := y; month := m; day := d |}.
Proof.
  unfold make_datetime.
  destruct (_ && _) eqn:Hc.
  - repeat (apply andb_prop in Hc as [Hc ?%N.leb_le]). apply N.leb_le in Hc.
    split; [by intros [= <-]|by intros [_ ->]].
  - split; [discriminate|]. intros [(Hy & Hm & Hd) _].
    rewrite <- not_true_iff_false in Hc. destruct Hc.
    repeat (apply andb_true_intro; split); apply N.leb_le; lia.
Qed.

Section Date.
Context `{LocaleDB}.
Variable self : PayPalStatementParser.

(** C4 -- [strptime] with the format of the parser accepts a Date field
    exactly when it is a day, a slash, a month, a slash and a four-digit
    year that together name a date of the calendar; the day and the month
    may be written with one digit or two (the day also with a blank and a
    digit), so the field need not be DD/MM/YYYY to the letter.  Any other
    field makes it raise [ValueError], which leaves the mapper and ends
    the run.  "25/12/2023" is 25 December 2023; "2023-12-25" fails. *)
Theorem date_parse_exact (s : string) :
  (∀ dt, strptime (PStr s) date_format = Ok dt ↔
     ∃ d m y,
       s = d +:+ "/" +:+ m +:+ "/" +:+ y
       ∧ d ∈ day_texts ∧ m ∈ month_texts ∧ year_text y
       ∧ make_datetime (int_of_group y) (int_of_group m) (int_of_group d) = Ok dt)
  ∧ (∀ y m d dt, make_datetime y m d = Ok dt ↔
       (1 ≤ y ≤ 9999 ∧ 1 ≤ m ≤ 12 ∧ 1 ≤ d ≤ days_in_month y m)%N
       ∧ dt = {| year := y; month := m; day := d |})
  ∧ (∀ e, strptime (PStr s) date_format = Raise e → e = ValueError)
  ∧ strptime (PStr "25/12/2023") date_format
    = Ok {| year := 2023; month := 12; day := 25 |}
  ∧ strptime (PStr "2023-12-25") date_format = Raise ValueError
  ∧ (∀ (r : row) st line st',
       field r 0 = PStr s → parse_record self r st = (Ok line, st') →
       strptime (PStr s) date_format = Ok (StatementLine.date line))
  ∧ (∀ (r : row) st,
       22 < length r → field r 0 = PStr s →
       (∀ dt, strptime (PStr s) date_format ≠ Ok dt) →
       parse_record self r st = (Raise ValueError, st)
       ∧ ∀ (pre post : list row) st0 lines,
           parse_records self pre st0 = (Ok lines, st) →
           parse_records self (pre ++ r :: post) st0 = (Raise ValueError, st)).
Proof.
  split; [intros dt; apply strptime_Ok|].
  split; [apply make_datetime_Ok|].
  split; [apply strptime_Raise|].
  split; [reflexivity|]. split; [reflexivity|]. split.
  - intros r st line st' Hf E.
    apply parse_record_Ok in E as (_ & d & text & a & Hd & _ & _ & ->).
    by rewrite <- Hf.
  - intros r st Hlen Hf Hno.
    assert (Hbad : parse_record self r st = (Raise ValueError, st)).
    { apply parse_record_bad_date; [done|]. rewrite Hf.
      destruct (strptime (PStr s) date_format) as [dt|e] eqn:E.
      - by destruct (Hno dt).
      - by rewrite (strptime_Raise s e E). }
    split; [done|]. intros pre post st0 lines Hpre.
    by eapply parse_records_abort.
Qed.

End Date.

(** * Concrete cases *)

(** Three rows: the sample, the sample in another currency, the sample as
    a bank deposit.  Only the first is kept. *)
Lemma rows_exact_subsequence_witness :
  Forall (λ r : row, 6 < length r)
    [sample_row; with_field 6 (PStr "USD") sample_row;
     with_field 4 (PStr excluded_type) sample_row]
  ∧ rows_of "EUR"
      [sample_row; with_field 6 (PStr "USD") sample_row;
       with_field 4 (PStr excluded_type) sample_row] = Ok [sample_row].
Proof.
  assert (Hlen : Forall (λ r : row, 6 < length r)
            [sample_row; with_field 6 (PStr "USD") sample_row;
             with_field 4 (PStr excluded_type) sample_row]).
  { repeat constructor; vm_compute; lia. }
  split; [exact Hlen|].
  destruct (rows_exact_subsequence "EUR" _ Hlen) as (_ & _ & out & -> & -> & _).
  reflexivity.
Defined.

(** Note "N", Subject "", no Item Title: the memo is "". *)
Lemma memo_by_precedence_witness :
  parse_record (H := sample_locales) (sample_parser None) untitled_row c_process
  = (Ok (mapped untitled_row {| year := 2023; month := 12; day := 25 |}
           (FFinite false 123456 (-2))), c_process)
  ∧ StatementLine.memo
      (mapped untitled_row {| year := 2023; month := 12; day := 25 |}
         (FFinite false 123456 (-2))) = PStr "".
Proof.
  assert (E : parse_record (H := sample_locales) (sample_parser None) untitled_row c_process
              = (Ok (mapped untitled_row {| year := 2023; month := 12; day := 25 |}
                       (FFinite false 123456 (-2))), c_process))
    by (vm_compute; reflexivity).
  split; [exact E|].
  apply (memo_by_precedence (H := sample_locales) _ _ _ _ _ E); reflexivity.
Defined.

(** A row of the reader with an empty Item Title, a Subject and a Note:
    the memo is the empty Item Title. *)
Lemma csv_memo_is_item_title_witness :
  parse_record (H := sample_locales) (sample_parser None)
    (from_csv (empty_title_fields "Invoice 7" "Thanks")) c_process
  = (Ok (mapped (from_csv (empty_title_fields "Invoice 7" "Thanks"))
           {| year := 2023; month := 12; day := 25 |} (FFinite false 1050 (-2))),
     c_process)
  ∧ ∃ title, empty_title_fields "Invoice 7" "Thanks" !! 14 = Some title
      ∧ StatementLine.memo
          (mapped (from_csv (empty_title_fields "Invoice 7" "Thanks"))
             {| year := 2023; month := 12; day := 25 |} (FFinite false 1050 (-2)))
        = PStr title.
Proof.
  assert (E : parse_record (H := sample_locales) (sample_parser None)
                (from_csv (empty_title_fields "Invoice 7" "Thanks")) c_process
              = (Ok (mapped (from_csv (empty_title_fields "Invoice 7" "Thanks"))
                       {| year := 2023; month := 12; day := 25 |}
                       (FFinite false 1050 (-2))), c_process))
    by (vm_compute; reflexivity).
  split; [exact E|].
  exact (proj1 (proj2 (csv_memo_is_item_title (H := sample_locales) _ _ _ _ _ E))).
Defined.

(** C3 -- The amount should be the number the prepared Gross text
    denotes, 1234.56 for "1.234,56", whatever locale is configured.  The
    code does not do that: with the German locale configured, [atof]
    takes the dot of the prepared text "1234.56" for a grouping mark and
    removes it, and the amount of the sample row is 123456, a hundred
    times what the same row gives with no locale configured. *)
Lemma amount_depends_on_locale :
  parse_record (H := sample_locales) (sample_parser (Some "de_DE.UTF-8"))
    sample_row c_process
  = (Ok (mapped sample_row {| year := 2023; month := 12; day := 25 |}
           (FFinite false 123456 0)), c_process)
  ∧ parse_record (H := sample_locales) (sample_parser None) sample_row c_process
    = (Ok (mapped sample_row {| year := 2023; month := 12; day := 25 |}
             (FFinite false 123456 (-2))), c_process).
Proof. split; vm_compute; reflexivity. Qed.

(** The sample row under the C locale. *)
Lemma amount_from_gross_witness :
  parse_record (H := sample_locales) (sample_parser None) sample_row c_process
  = (Ok (mapped sample_row {| year := 2023; month := 12; day := 25 |}
           (FFinite false 123456 (-2))), c_process)
  ∧ ∃ g c, sample_row !! 7 = Some (PStr g)
      ∧ effective_locale (H := sample_locales) None c_process = Some c
      ∧ float (delocalize_with (localeconv_of (LocaleDB := sample_locales) c) (normalized g))
        = Ok (FFinite false 123456 (-2)).
Proof.
  assert (E : parse_record (H := sample_locales) (sample_parser None) sample_row c_process
              = (Ok (mapped sample_row {| year := 2023; month := 12; day := 25 |}
                       (FFinite false 123456 (-2))), c_process))
    by (vm_compute; reflexivity).
  split; [exact E|].
  destruct (amount_from_gross (H := sample_locales) _ _ _ _ _ E)
    as [(g & c & Hg & _ & Hc & Hf & _) _].
  exists g, c. split; [exact Hg|]. split; [exact Hc|exact Hf].
Defined.

(** C4, as stated, fails -- "5/3/2023" is not DD/MM/YYYY to the letter,
    and [strptime] takes it for 5 March 2023. *)
Lemma single_digit_date_parses :
  strict_DDMMYYYY "5/3/2023" = false
  ∧ strptime (PStr "5/3/2023") date_format
    = Ok {| year := 2023; month := 3; day := 5 |}.
Proof. split; reflexivity. Qed.



(** C6, as stated, fails -- a row of 23 fields, shorter than the 25
    columns, passes the filter and is mapped to a line; no error is
    raised. *)
Lemma row_of_23_is_mapped :
  length row_of_23 = 23
  ∧ rows_of "EUR" [row_of_23] = Ok [row_of_23]
  ∧ parse_record (H := sample_locales) (sample_parser None) row_of_23 c_process
    = (Ok (mapped row_of_23 {| year := 2023; month := 12; day := 25 |}
             (FFinite false 123456 (-2))), c_process).
Proof. repeat split; vm_compute; reflexivity. Qed.

(** Three calls from a process in the C locale: one returns a number, one
    raises on a text that is no number, one raises on a locale that is not
    installed.  The process is in the C locale after each. *)
Lemma atof_restores_locale_witness :
  restorable (H := sample_locales) c_process
  ∧ snd (atof (H := sample_locales) "1234,56" (Some "de_DE.UTF-8") c_process) = c_process
  ∧ snd (atof (H := sample_locales) "12a" (Some "de_DE.UTF-8") c_process) = c_process
  ∧ snd (atof (H := sample_locales) "12" (Some "xx_XX") c_process) = c_process.
Proof.
  assert (Hres : restorable (H := sample_locales) c_process) by reflexivity.
  split; [exact Hres|].
  split; [|split];
    match goal with
    | |- snd ?call = _ =>
        exact (proj1 (atof_restores_locale (H := sample_locales) _ _ _ Hres
                        (fst call) (snd call) (surjective_pairing call)))
    end.
Defined.

(** * Further properties of the module *)

(** ** Looking up a column by its name *)

Lemma index_Ok (l : list string) (x : string) (n : nat) :
  index l x = Ok n ↔ l !! n = Some x ∧ ∀ m, m < n → l !! m ≠ Some x.
Proof.
  revert n. induction l as [|y l IH]; intros n; simpl.
  - split; [discriminate|]. by intros [? _].
  - destruct (decide (y = x)) as [->|Hne].
    + split.
      * intros [= <-]. split; [done|]. intros m Hm. lia.
      * intros [Hn Hfirst]. destruct n as [|n]; [done|].
        by destruct (Hfirst 0 ltac:(lia)).
    + destruct (index l x) as [k|e]; simpl.
      * split.
        -- intros [= <-]. destruct (proj1 (IH k) eq_refl) as [Hk Hfirst].
           split; [done|].
           intros [|m] Hm; simpl; [congruence|]. apply Hfirst. lia.
        -- intros [Hn Hfirst]. destruct n as [|n]; [simpl in Hn; congruence|].
           assert (Hn' : Ok k = Ok n); [|congruence].
           apply IH. split; [done|]. intros m Hm. apply (Hfirst (S m)). lia.
      * split; [discriminate|]. intros [Hn Hfirst].
        destruct n as [|n]; [simpl in Hn; congruence|].
        assert (Hn' : @Raise nat e = Ok n); [|discriminate].
        apply IH. split; [done|]. intros m Hm. apply (Hfirst (S m)). lia.
Qed.

Lemma index_Raise (l : list string) (x : string) (e : exn) :
  index l x = Raise e ↔ e = ValueError ∧ x ∉ l.
Proof.
  induction l as [|y l IH]; simpl.
  - split; [intros [= <-]; split; [done|apply not_elem_of_nil]|by intros [-> _]].
  - destruct (decide (y = x)) as [->|Hne].
    + split; [discriminate|]. intros [_ Hnot]. destruct Hnot. left.
    + destruct (index l x) as [k|e']; simpl.
      * split; [discriminate|]. intros [-> Hnot].
        assert (Hr : Ok k = Raise ValueError); [|discriminate].
        apply IH. split; [done|]. intros Hin. apply Hnot. by right.
      * split.
        -- intros [= ->]. destruct (proj1 IH eq_refl) as [-> Hnot]. split; [done|].
           intros [?|?]%elem_of_cons; [congruence|done].
        -- intros [-> Hnot]. apply IH. split; [done|].
           intros Hin. apply Hnot. by right.
Qed.

(** X1 -- The names of [valid_header] are all different, so looking a
    column up by its name gives back its own position: [index] of the
    name at position [i] is [i], whatever column it is; a name that is
    not in the header raises [ValueError], and nothing else does. *)
Theorem header_lookup_roundtrip (name : string) :
  NoDup valid_header
  ∧ (∀ i, valid_header !! i = Some name ↔ index valid_header name = Ok i)
  ∧ (∀ e, index valid_header name = Raise e ↔ e = ValueError ∧ name ∉ valid_header).
Proof.
  assert (Hnd : NoDup valid_header).
  { apply (bool_decide_unpack _). vm_compute. exact I. }
  split; [done|]. split; [|intros e; apply index_Raise].
  intros i. rewrite index_Ok. split; [|by intros [? _]].
  intros Hi. split; [done|]. intros m Hm Hmx.
  pose proof (NoDup_lookup _ _ _ _ Hnd Hi Hmx). lia.
Qed.

(** ** More on the row filter *)

Section Row_filter_more.
Variable cur : string.

Lemma filterM_app {A : Type} (p : A → result bool) (a b : list A) :
  filterM p (a ++ b) = (xs ← filterM p a; ys ← filterM p b; Ok (xs ++ ys)).
Proof.
  induction a as [|x a IH]; simpl.
  - by destruct (filterM p b).
  - destruct (p x) as [keep|e]; [|reflexivity]. simpl. rewrite IH.
    destruct (filterM p a) as [xs|e]; [|reflexivity]. simpl.
    destruct (filterM p b) as [ys|e]; [|reflexivity]. simpl.
    by destruct keep.
Qed.

(** X2 -- Filtering two batches of rows one after the other is filtering
    them apart and joining the results, errors included: the rows kept
    from [a ++ b] are those kept from [a] followed by those kept from
    [b], and the whole raises as soon as either part does. *)
Theorem rows_of_app (a b : list row) :
  rows_of cur (a ++ b) = (xs ← rows_of cur a; ys ← rows_of cur b; Ok (xs ++ ys)).
Proof. rewrite !rows_of_unfold. apply filterM_app. Qed.

Lemma filter_keeps_fixed (l : list row) :
  Forall (λ r : row, 6 < length r ∧ keeps cur r = true) l →
  List.filter (keeps cur) l = l.
Proof.
  induction 1 as [|r l [_ Hk] _ IH]; simpl; [done|]. by rewrite Hk, IH.
Qed.

(** X3 -- The filter is idempotent and never adds rows: what it returned
    passes it again unchanged, and is no longer than what it was given. *)
Theorem rows_of_idempotent (rs out : list row) :
  rows_of cur rs = Ok out →
  rows_of cur out = Ok out ∧ length out ≤ length rs.
Proof.
  intros E. pose proof (rows_of_kept cur rs out E) as Hkept. split.
  - rewrite rows_of_filter.
    + by rewrite filter_keeps_fixed.
    + eapply Forall_impl; [exact Hkept|]. by intros r [? _].
  - rewrite rows_of_unfold in E. apply filterM_sublist in E.
    by apply sublist_length.
Qed.

End Row_filter_more.

Section Reader.
Context `{Files}.

(** X4 -- The header and the data rows split what the reader yields.  On
    a file with no row at all [header] raises [IndexError] while [rows]
    is the empty list; otherwise [header] is the first row with every
    cell stripped, as many cells as the row has, and [rows] filters the
    rows after the first and nothing else. *)
Theorem header_rows_split (self : PayPalStatementParser) :
  (reader self = [] → header self = Raise IndexError ∧ rows self = Ok [])
  ∧ (∀ h rest, reader self = h :: rest →
       header self = Ok (strip <$> h)
       ∧ rows self = rows_of (currency self) (from_csv <$> rest))
  ∧ (∀ hs, header self = Ok hs →
       ∃ h, reader self = h :: Iter.drop (reader self) 1
            ∧ hs = strip <$> h ∧ length hs = length h).
Proof.
  unfold header, rows. split; [|split].
  - intros ->. split; reflexivity.
  - intros h rest ->. split; reflexivity.
  - intros hs. destruct (reader self) as [|h rest]; [discriminate|].
    rewrite head_cons. simpl. intros [= <-]. exists h.
    split; [reflexivity|]. split; [reflexivity|]. by rewrite length_fmap.
Qed.

End Reader.

(** ** More on the scoped locale *)

Section Scoped_locale_more.
Context `{LocaleDB}.


End Scoped_locale_more.

(** ** More on the record mapper *)

Section Mapper_more.
Context `{LocaleDB}.
Variable self : PayPalStatementParser.

(** The mapper as a function of the row and the locale in effect, on a
    row long enough and from a setting that survives the trip through
    [getlocale] and [setlocale]. *)
Lemma parse_record_outcome (r : row) (st : process) :
  22 < length r →
  restorable st →
  parse_record self r st =
  (d ← strptime (field r 0) date_format;
   text ← gross_text (field r 7);
   a ← match effective_locale (locale self) st with
       | Some c => float (delocalize_with (localeconv_of c) text)
       | None => Raise LocaleError
       end;
   Ok (mapped r d a), st).
Proof.
  intros Hlen Hres. rewrite parse_record_unfold by done.
  rewrite bind_lift.
  destruct (strptime (field r 0) date_format) as [d|e]; [|reflexivity].
  cbv beta. rewrite bind_lift.
  destruct (gross_text (field r 7)) as [text|e]; [|reflexivity].
  cbv beta. unfold mbind at 1. unfold M_bind. rewrite (atof_value _ _ _ Hres).
  unfold mbind, result_bind. cbv beta iota.
  destruct (effective_locale (locale self) st) as [c|]; [|reflexivity].
  destruct (float (delocalize_with (localeconv_of c) text)); reflexivity.
Qed.

(** X6 -- A call of [parse_record] leaves the process-wide numeric locale
    as it found it, whatever the row is and whether a line comes out or
    an exception: a row too short, a bad date, a bad amount, a locale
    that is not installed.  The setting before the call is one that
    survives the trip through [getlocale] and [setlocale]: the name
    built from the pair [getlocale] reports, normalised, selects it
    again. *)
Theorem parse_record_keeps_locale (r : row) (st : process) :
  restorable st →
  snd (parse_record self r st) = st.
Proof.
  intros Hres. destruct (le_lt_dec (length r) 22) as [Hshort|Hlen].
  - by rewrite parse_record_short.
  - by rewrite parse_record_outcome.
Qed.


(** X8 -- With a locale configured and installed, what the mapper
    returns does not depend on the locale the process happens to be in:
    from any two settings that survive the trip through [getlocale] and
    [setlocale] (the name built from the reported pair, normalised,
    selects the setting again) the same row gives the same line or the
    same exception. *)
Theorem configured_locale_shields (r : row) (st1 st2 : process) (name c : string) :
  locale self = Some name →
  resolve name = Some c →
  restorable st1 →
  restorable st2 →
  fst (parse_record self r st1) = fst (parse_record self r st2).
Proof.
  intros Hloc Hname H1 H2. destruct (le_lt_dec (length r) 22) as [Hshort|Hlen].
  - by rewrite !parse_record_short.
  - rewrite !parse_record_outcome by done.
    unfold effective_locale. by rewrite Hloc, Hname.
Qed.

(** X9 -- The payee of a line is the text "Name: ", the Name field,
    " Email: " and the To Email Address field (position 11, not the From
    address), the fields as they stand; a field that is [None] is written
    None. *)
Theorem payee_format (r : row) (st st' : process) (line : StatementLine.t) :
  parse_record self r st = (Ok line, st') →
  ∃ name email,
    r !! 3 = Some name ∧ r !! 11 = Some email
    ∧ index valid_header "Name" = Ok 3
    ∧ index valid_header "To Email Address" = Ok 11
    ∧ StatementLine.payee line
      = "Name: " +:+ py_format name +:+ " Email: " +:+ py_format email
    ∧ (∀ n e, name = PStr n → email = PStr e →
         StatementLine.payee line = "Name: " +:+ n +:+ " Email: " +:+ e).
Proof.
  intros E. apply parse_record_Ok in E as (Hlen & d & text & a & _ & _ & _ & ->).
  exists (field r 3), (field r 11).
  rewrite (field_lookup r 3), (field_lookup r 11) by lia.
  cbn [mapped StatementLine.payee].
  split; [done|]. split; [done|]. split; [reflexivity|]. split; [reflexivity|].
  split; [done|]. by intros n e -> ->.
Qed.

End Mapper_more.

(** ** Amounts written with digits *)

Lemma append_cons (c : ascii) (a b : string) : String c a +:+ b = String c (a +:+ b).
Proof. reflexivity. Qed.

Lemma append_nil (b : string) : "" +:+ b = b.
Proof. reflexivity. Qed.

Lemma all_chars_app (p : cls) (a b : string) :
  all_chars p (a +:+ b) = all_chars p a && all_chars p b.
Proof.
  induction a as [|c a IH]; [reflexivity|].
  rewrite append_cons. simpl. by rewrite IH, andb_assoc.
Qed.

Lemma all_chars_impl (p q : cls) (s : string) :
  (∀ c, p c = true → q c = true) → all_chars p s = true → all_chars q s = true.
Proof.
  intros Hpq. induction s as [|c s IH]; simpl; [done|].
  rewrite !andb_true_iff. intros [Hc Hs]. split; [by apply Hpq|by apply IH].
Qed.

(** What a digit is not. *)
Lemma digit_facts (c : ascii) :
  is_digit c = true →
  is_float_space c = false ∧ lower_char c = c
  ∧ c ≠ "_"%char ∧ c ≠ "-"%char ∧ c ≠ "+"%char ∧ c ≠ "."%char
  ∧ c ≠ " "%char ∧ c ≠ ","%char ∧ c ≠ "i"%char ∧ c ≠ "n"%char.
Proof.
  intros Hd. apply is_digit_enum in Hd.
  repeat (apply elem_of_cons in Hd as [->|Hd]); [..|by apply elem_of_nil in Hd];
    repeat split; done.
Qed.

Lemma digit_plain (c : ascii) : is_digit c = true → plain_char c = true.
Proof.
  intros Hd. destruct (digit_facts c Hd) as (Hs & _ & Hu & _).
  unfold plain_char. rewrite Hs. simpl. by rewrite bool_decide_eq_false_2.
Qed.

Lemma float_rstrip_plain (s : string) :
  all_chars plain_char s = true → float_rstrip s = s.
Proof.
  induction s as [|c s IH]; simpl; [done|].
  rewrite andb_true_iff. intros [Hc Hs]. rewrite (IH Hs).
  unfold plain_char in Hc. apply andb_true_iff in Hc as [Hc _].
  apply negb_true_iff in Hc. rewrite Hc. by destruct s.
Qed.

Lemma float_lstrip_plain (s : string) :
  all_chars plain_char s = true → float_lstrip s = s.
Proof.
  destruct s as [|c s]; simpl; [done|].
  rewrite andb_true_iff. intros [Hc _].
  unfold plain_char in Hc. apply andb_true_iff in Hc as [Hc _].
  apply negb_true_iff in Hc. by rewrite Hc.
Qed.

Lemma drop_underscores_plain (prev : option ascii) (s : string) :
  prev ≠ Some "_"%char →
  all_chars plain_char s = true → drop_underscores prev s = Some s.
Proof.
  revert prev. induction s as [|c s IH]; intros prev Hprev; simpl.
  - intros _. destruct prev as [p|]; [|done].
    destruct p as [[] [] [] [] [] [] [] []]; done.
  - rewrite andb_true_iff. intros [Hc Hs].
    unfold plain_char in Hc. apply andb_true_iff in Hc as [_ Hc].
    apply negb_true_iff, bool_decide_eq_false in Hc.
    rewrite decide_False by done.
    assert (Hrec : drop_underscores (Some c) s = Some s).
    { apply IH; [|done]. by intros [= ->]. }
    destruct prev as [p|]; [|by rewrite Hrec].
    destruct p as [[] [] [] [] [] [] [] []]; first [by rewrite Hrec|by destruct Hprev].
Qed.

(** On a sign and a text that starts with a digit and holds nothing
    [float] strips or skips, [float] is the reading of the decimal
    literal. *)
Lemma float_signed (neg : bool) (c : ascii) (rest : string) :
  is_digit c = true →
  all_chars plain_char rest = true →
  float (sign_text neg +:+ String c rest) =
  match parse_decimal neg (String c rest) with
  | Some f => Ok f
  | None => Raise ValueError
  end.
Proof.
  intros Hd Hrest.
  assert (Hplain : all_chars plain_char (sign_text neg +:+ String c rest) = true).
  { rewrite all_chars_app. simpl. rewrite (digit_plain c Hd), Hrest. by destruct neg. }
  destruct (digit_facts c Hd) as (_ & Hlow & _ & Hm & Hp & _ & _ & _ & Hi & Hn).
  assert (Ht : take_sign (sign_text neg +:+ String c rest) = (neg, String c rest)).
  { destruct neg; [reflexivity|]. rewrite append_nil. apply is_digit_enum in Hd.
    repeat (apply elem_of_cons in Hd as [->|Hd]); [..|by apply elem_of_nil in Hd];
      reflexivity. }
  unfold float. rewrite float_lstrip_plain, float_rstrip_plain by done.
  assert (Hne : ∃ x y, sign_text neg +:+ String c rest = String x y)
    by (destruct neg; eexists _, _; reflexivity).
  destruct Hne as (x & y & Hxy). rewrite Hxy in *. cbv iota.
  rewrite drop_underscores_plain by done. rewrite Ht.
  cbn [lower]. rewrite Hlow.
  rewrite decide_False by (intros [[=]|[=]]; done).
  rewrite decide_False by (intros [=]; done).
  reflexivity.
Qed.

Lemma span_digits_app (a rest : string) :
  digits_only a = true →
  span_digits (a +:+ rest) = (a +:+ (span_digits rest).1, (span_digits rest).2).
Proof.
  unfold digits_only. induction a as [|c a IH]; simpl.
  - intros _. rewrite append_nil. by destruct (span_digits rest).
  - rewrite andb_true_iff. intros [Hc Ha]. rewrite append_cons. simpl.
    rewrite Hc, (IH Ha). reflexivity.
Qed.

Lemma span_digits_all (a : string) :
  digits_only a = true → span_digits a = (a, EmptyString).
Proof.
  intros Ha. rewrite <- (append_empty a) at 1.
  rewrite (span_digits_app a "" Ha). simpl. by rewrite append_empty.
Qed.

Lemma digits_plain (a : string) :
  digits_only a = true → all_chars plain_char a = true.
Proof. apply all_chars_impl, digit_plain. Qed.

(** [float] on a sign, digits, a dot and digits. *)
Lemma float_decimal_text (neg : bool) (ip fp : string) :
  digits_only ip = true → ip ≠ "" → digits_only fp = true →
  float (sign_text neg +:+ ip +:+ "." +:+ fp)
  = Ok (FFinite neg (N_of_digits (ip +:+ fp)) (- Z.of_nat (String.length fp))).
Proof.
  intros Hip Hne Hfp. destruct ip as [|c ip]; [done|].
  unfold digits_only in Hip. simpl in Hip. apply andb_true_iff in Hip as [Hc Hip].
  rewrite append_cons. rewrite float_signed; [|done|].
  - unfold parse_decimal.
    change (String c (ip +:+ "." +:+ fp)) with (String c ip +:+ String "." fp).
    rewrite span_digits_app by (unfold digits_only; simpl; by rewrite Hc, Hip).
    change (span_digits (String "." fp)) with (EmptyString, String "."%char fp).
    cbn [fst snd]. rewrite append_empty. cbv iota beta.
    rewrite (span_digits_all fp Hfp). rewrite append_cons. cbv iota beta.
    simpl. by rewrite Z.sub_0_l.
  - rewrite !all_chars_app, (digits_plain ip Hip), (digits_plain fp Hfp).
    reflexivity.
Qed.

(** [float] on a sign and digits. *)
Lemma float_integer_text (neg : bool) (ip : string) :
  digits_only ip = true → ip ≠ "" →
  float (sign_text neg +:+ ip) = Ok (FFinite neg (N_of_digits ip) 0).
Proof.
  intros Hip Hne. destruct ip as [|c ip]; [done|].
  pose proof Hip as Hall.
  unfold digits_only in Hip. simpl in Hip. apply andb_true_iff in Hip as [Hc Hip].
  rewrite float_signed; [|done|by apply digits_plain].
  unfold parse_decimal. rewrite (span_digits_all _ Hall). cbv iota beta.
  rewrite append_empty. reflexivity.
Qed.

Lemma append_assoc (a b c : string) : (a +:+ b) +:+ c = a +:+ (b +:+ c).
Proof.
  induction a as [|x a IH]; [reflexivity|]. rewrite !append_cons. by rewrite IH.
Qed.

(** Replacing a single character goes through a concatenation. *)
Lemma replace_char_app (a : ascii) (new x y : string) :
  replace (x +:+ y) (String a EmptyString) new
  = replace x (String a EmptyString) new +:+ replace y (String a EmptyString) new.
Proof.
  unfold replace. induction x as [|c x IH]; [reflexivity|].
  rewrite append_cons, !replace_from_char, IH.
  destruct (decide (c = a)); [by rewrite append_assoc|reflexivity].
Qed.

Lemma replace_char_absent (a : ascii) (new s : string) :
  all_chars (λ c, negb (bool_decide (c = a))) s = true →
  replace s (String a EmptyString) new = s.
Proof.
  unfold replace. induction s as [|c s IH]; simpl all_chars; [done|].
  rewrite andb_true_iff, negb_true_iff, bool_decide_eq_false. intros [Hc Hs].
  rewrite replace_from_char, decide_False by done. by rewrite (IH Hs).
Qed.

Lemma digits_no_comma (s : string) :
  digits_only s = true → all_chars (λ c, negb (bool_decide (c = ","%char))) s = true.
Proof.
  apply all_chars_impl. intros c Hd.
  destruct (digit_facts c Hd) as (_ & _ & _ & _ & _ & _ & _ & Hcomma & _).
  by rewrite bool_decide_eq_false_2.
Qed.

(** The last of the three replacements, on an amount written with a
    comma. *)
Lemma comma_to_dot (neg : bool) (ip fp : string) :
  digits_only ip = true → digits_only fp = true →
  replace (sign_text neg +:+ ip +:+ "," +:+ fp) "," "."
  = sign_text neg +:+ ip +:+ "." +:+ fp.
Proof.
  intros Hip Hfp. rewrite !replace_char_app.
  rewrite (replace_char_absent _ _ ip (digits_no_comma ip Hip)).
  rewrite (replace_char_absent _ _ fp (digits_no_comma fp Hfp)).
  by destruct neg.
Qed.

Lemma comma_absent (neg : bool) (ip : string) :
  digits_only ip = true →
  replace (sign_text neg +:+ ip) "," "." = sign_text neg +:+ ip.
Proof.
  intros Hip. rewrite replace_char_app.
  rewrite (replace_char_absent _ _ ip (digits_no_comma ip Hip)).
  by destruct neg.
Qed.

Lemma field_of_lookup (r : row) (i : nat) (v : pyval) :
  r !! i = Some v → field r i = v.
Proof. unfold field. by intros ->. Qed.

Section Amounts_in_digits.
Context `{LocaleDB}.
Variable self : PayPalStatementParser.

(** The amount of a row whose Date parses, under a locale that writes
    numbers with a dot and no grouping, is [float] of the prepared
    text. *)
Lemma parse_record_plain_locale (r : row) (st : process) (d : datetime)
    (g c : string) :
  22 < length r →
  strptime (field r 0) date_format = Ok d →
  r !! 7 = Some (PStr g) →
  restorable st →
  effective_locale (locale self) st = Some c →
  decimal_point (localeconv_of c) = "." →
  thousands_sep (localeconv_of c) = "" →
  parse_record self r st =
  (a ← float (replace (replace (replace g " " "") "." "") "," "."); Ok (mapped r d a), st).
Proof.
  intros Hlen Hd Hg Hres Heff Hdp Hts.
  rewrite parse_record_outcome by done.
  rewrite Hd, (field_of_lookup r 7 _ Hg), Heff. cbn [gross_text].
  unfold mbind at 1 2. unfold result_bind. cbv beta iota.
  by rewrite delocalize_plain, replace_chain_normalized.
Qed.

(** X10 -- An amount PayPal writes the German way is read as the number
    it denotes.  When the Gross field, its spaces and dots removed, is an
    optional minus, digits, a comma and digits, 15 digits at most in all,
    the locale in effect writes numbers with a dot and no grouping, and
    the setting of the process survives the trip through [getlocale] and
    [setlocale], the mapper returns the line whose amount is [float] of
    the digits with a dot for the comma: the double of the decimal with
    that sign, these digits and as many decimals as there are digits
    after the comma. *)
Theorem german_amount (r : row) (st : process) (d : datetime) (g c : string)
    (neg : bool) (ip fp : string) :
  22 < length r →
  strptime (field r 0) date_format = Ok d →
  r !! 7 = Some (PStr g) →
  replace (replace g " " "") "." "" = sign_text neg +:+ ip +:+ "," +:+ fp →
  digits_only ip = true → ip ≠ "" → digits_only fp = true →
  String.length ip + String.length fp ≤ 15 →
  restorable st →
  effective_locale (locale self) st = Some c →
  decimal_point (localeconv_of c) = "." →
  thousands_sep (localeconv_of c) = "" →
  parse_record self r st
  = (Ok (mapped r d (FFinite neg (N_of_digits (ip +:+ fp))
                       (- Z.of_nat (String.length fp)))), st).
Proof.
  intros Hlen Hd Hg Hu Hip Hne Hfp _ Hres Heff Hdp Hts.
  rewrite (parse_record_plain_locale r st d g c) by done.
  rewrite Hu, (comma_to_dot neg ip fp Hip Hfp).
  by rewrite (float_decimal_text neg ip fp Hip Hne Hfp).
Qed.

(** X11 -- A dot is never a decimal point.  When the Gross field, its
    spaces and dots removed, is an optional minus and digits (no comma),
    15 digits at most, the amount is the integer of all those digits:
    "1234.56" is read as 123456.  The locale in effect writes numbers
    with a dot and no grouping, and the setting of the process survives
    the trip through [getlocale] and [setlocale]. *)
Theorem dots_are_dropped (r : row) (st : process) (d : datetime) (g c : string)
    (neg : bool) (ip : string) :
  22 < length r →
  strptime (field r 0) date_format = Ok d →
  r !! 7 = Some (PStr g) →
  replace (replace g " " "") "." "" = sign_text neg +:+ ip →
  digits_only ip = true → ip ≠ "" →
  String.length ip ≤ 15 →
  restorable st →
  effective_locale (locale self) st = Some c →
  decimal_point (localeconv_of c) = "." →
  thousands_sep (localeconv_of c) = "" →
  parse_record self r st = (Ok (mapped r d (FFinite neg (N_of_digits ip) 0)), st).
Proof.
  intros Hlen Hd Hg Hu Hip Hne _ Hres Heff Hdp Hts.
  rewrite (parse_record_plain_locale r st d g c) by done.
  rewrite Hu, (comma_absent neg ip Hip).
  by rewrite (float_integer_text neg ip Hip Hne).
Qed.

End Amounts_in_digits.

Lemma normalized_app (a b : string) :
  normalized (a +:+ b) = normalized a +:+ normalized b.
Proof.
  induction a as [|c a IH]; [reflexivity|]. rewrite append_cons. simpl.
  rewrite IH. by repeat destruct (decide _).
Qed.

Section Grouping.
Context `{LocaleDB}.
Variable self : PayPalStatementParser.

Lemma field_insert_ne (r : row) (i j : nat) (v : pyval) :
  i ≠ j → field (<[i := v]> r) j = field r j.
Proof. intros Hne. unfold field. by rewrite list_lookup_insert_ne. Qed.

Lemma mapped_insert_gross (r : row) (v : pyval) (d : datetime) (a : pyfloat) :
  mapped (<[7 := v]> r) d a = mapped r d a.
Proof.
  unfold mapped, memo_precedence. by rewrite !field_insert_ne by lia.
Qed.

(** X12 -- Spaces and dots in the Gross field count for nothing, wherever
    they stand: a row gives the same line, or the same exception, as the
    row with one space or one dot taken out of its Gross field. *)
Theorem grouping_marks_ignored (r : row) (st : process) (a b : string) (sep : ascii) :
  sep = " "%char ∨ sep = "."%char →
  r !! 7 = Some (PStr (a +:+ String sep b)) →
  parse_record self r st = parse_record self (<[7 := PStr (a +:+ b)]> r) st.
Proof.
  intros Hsep Hg. destruct (le_lt_dec (length r) 22) as [Hshort|Hlen].
  { rewrite !parse_record_short; rewrite ?length_insert; done. }
  rewrite !parse_record_unfold by (rewrite ?length_insert; done).
  rewrite (field_insert_ne r 7 0) by lia.
  assert (Hnew : field (<[7 := PStr (a +:+ b)]> r) 7 = PStr (a +:+ b)).
  { unfold field. by rewrite list_lookup_insert_eq by lia. }
  rewrite Hnew, (field_of_lookup r 7 _ Hg). cbn [gross_text].
  assert (Hn : normalized (a +:+ String sep b) = normalized (a +:+ b)).
  { rewrite !normalized_app. f_equal. cbn [normalized].
    destruct Hsep as [-> | ->]; reflexivity. }
  rewrite Hn, !bind_lift.
  destruct (strptime (field r 0) date_format) as [d|e]; [|reflexivity].
  cbv beta. rewrite !bind_lift. cbv beta iota.
  unfold mbind, M_bind.
  destruct (atof (normalized (a +:+ b)) (locale self) st) as [[x|e] st2]; [|reflexivity].
  unfold mret, M_ret. by rewrite mapped_insert_gross.
Qed.

End Grouping.

(** ** More on [get_parser] *)

Section Plugin_more.
Context `{Files}.

(** The keyword dictionary [get_parser] hands to the constructor, when
    the [analyze] setting has been read as [an]. *)
Lemma kwargs_lookup (settings : gmap string string) (key : string) (k0 : gmap string kwarg) :
  copy_setting key settings k0 !! key
  = match settings !! key with Some v => Some (KStr v) | None => k0 !! key end.
Proof.
  unfold copy_setting. destruct (settings !! key); [by rewrite lookup_insert_eq|done].
Qed.

Lemma kwargs_lookup_ne (settings : gmap string string) (key other : string)
    (k0 : gmap string kwarg) :
  key ≠ other → copy_setting key settings k0 !! other = k0 !! other.
Proof.
  intros Hne. unfold copy_setting.
  destruct (settings !! key); [by rewrite lookup_insert_ne|done].
Qed.

(** X13 -- With an account and a currency in the settings and an
    [analyze] setting that is absent or readable, [get_parser] opens the
    file with the configured encoding, "iso8859-1" when none is
    configured, and returns a parser that holds the settings as they
    stand, the locale absent when not configured and [analyze] false when
    not configured; an error on opening or decoding the file comes out
    unchanged. *)
Theorem get_parser_builds (settings : gmap string string) (fin a c : string) (an : bool) :
  settings !! "account_id" = Some a →
  settings !! "currency" = Some c →
  match settings !! "analyze" with
  | Some v => parse_bool v = Ok an
  | None => an = false
  end →
  get_parser settings fin =
  (ls ← readlines fin (Some (default "iso8859-1" (settings !! "encoding")));
   Ok {| account_id := a; currency := c; locale := settings !! "locale";
         encoding := Some (default "iso8859-1" (settings !! "encoding"));
         analyze := an; lines := ls |}).
Proof.
  intros Ha Hc Han. unfold get_parser.
  destruct (decide (settings = ∅)) as [->|_]; [by rewrite lookup_empty in Ha|].
  set (k4 := copy_setting "encoding" settings
               (copy_setting "locale" settings
                  (copy_setting "currency" settings
                     (copy_setting "account_id" settings
                        {[ "encoding" := KStr "iso8859-1" ]})))).
  assert (Hka : k4 !! "account_id" = Some (KStr a)).
  { unfold k4. rewrite !kwargs_lookup_ne by done. by rewrite kwargs_lookup, Ha. }
  assert (Hkc : k4 !! "currency" = Some (KStr c)).
  { unfold k4. rewrite !kwargs_lookup_ne by done. by rewrite kwargs_lookup, Hc. }
  assert (Hke : k4 !! "encoding"
                = Some (KStr (default "iso8859-1" (settings !! "encoding")))).
  { unfold k4. rewrite kwargs_lookup.
    destruct (settings !! "encoding"); [done|].
    rewrite !kwargs_lookup_ne by done. by rewrite lookup_singleton_eq. }
  assert (Hkl : k4 !! "locale" = KStr <$> settings !! "locale").
  { unfold k4. rewrite kwargs_lookup_ne by done. rewrite kwargs_lookup.
    destruct (settings !! "locale"); [done|].
    rewrite !kwargs_lookup_ne by done. by rewrite lookup_singleton_ne. }
  assert (Hkn : k4 !! "analyze" = None).
  { unfold k4. rewrite !kwargs_lookup_ne by done. by rewrite lookup_singleton_ne. }
  destruct (settings !! "analyze") as [v|].
  - rewrite Han. simpl. unfold new_parser. cbv zeta beta.
    rewrite (lookup_insert_ne k4 "analyze" "account_id") by done.
    rewrite (lookup_insert_ne k4 "analyze" "currency") by done.
    rewrite (lookup_insert_ne k4 "analyze" "encoding") by done.
    rewrite (lookup_insert_ne k4 "analyze" "locale") by done.
    rewrite Hka, Hkc, Hke, Hkl, lookup_insert_eq.
    destruct (settings !! "locale"); reflexivity.
  - subst an. simpl. unfold new_parser. cbv zeta beta.
    rewrite Hka, Hkc, Hke, Hkl, Hkn.
    destruct (settings !! "locale"); reflexivity.
Qed.

(** X14 -- Without an account or without a currency in the settings (and
    so with no settings at all), [get_parser] raises [TypeError], the
    constructor missing an argument, and no file is opened; the [analyze]
    setting is absent or readable. *)
Theorem get_parser_missing (settings : gmap string string) (fin : string) :
  settings !! "account_id" = None ∨ settings !! "currency" = None →
  (∀ v, settings !! "analyze" = Some v → ∃ b, parse_bool v = Ok b) →
  get_parser settings fin = Raise TypeError.
Proof.
  intros Hmiss Han. unfold get_parser.
  destruct (decide (settings = ∅)) as [->|_]; [reflexivity|].
  set (k4 := copy_setting "encoding" settings
               (copy_setting "locale" settings
                  (copy_setting "currency" settings
                     (copy_setting "account_id" settings
                        {[ "encoding" := KStr "iso8859-1" ]})))).
  assert (Hka : k4 !! "account_id" = KStr <$> settings !! "account_id").
  { unfold k4. rewrite !kwargs_lookup_ne by done. rewrite kwargs_lookup.
    destruct (settings !! "account_id"); [done|]. by rewrite lookup_singleton_ne. }
  assert (Hkc : k4 !! "currency" = KStr <$> settings !! "currency").
  { unfold k4. rewrite !kwargs_lookup_ne by done. rewrite kwargs_lookup.
    destruct (settings !! "currency"); [done|].
    rewrite kwargs_lookup_ne by done. by rewrite lookup_singleton_ne. }
  assert (Hnew : ∀ k : gmap string kwarg,
            k !! "account_id" = KStr <$> settings !! "account_id" →
            k !! "currency" = KStr <$> settings !! "currency" →
            new_parser fin k = Raise TypeError).
  { intros k Hk1 Hk2. unfold new_parser. rewrite Hk1, Hk2.
    destruct Hmiss as [-> | ->]; simpl; [done|].
    by destruct (settings !! "account_id"). }
  destruct (settings !! "analyze") as [v|] eqn:Hv.
  - destruct (Han v eq_refl) as [b ->]. simpl. apply Hnew.
    + by rewrite lookup_insert_ne.
    + by rewrite lookup_insert_ne.
  - simpl. by apply Hnew.
Qed.

End Plugin_more.

(** * Concrete cases of the further properties *)

(** Filtering the kept sample row again keeps it. *)
Lemma rows_of_idempotent_witness :
  rows_of "EUR" [sample_row; with_field 6 (PStr "USD") sample_row] = Ok [sample_row]
  ∧ rows_of "EUR" [sample_row] = Ok [sample_row]
  ∧ length [sample_row] ≤ length [sample_row; with_field 6 (PStr "USD") sample_row].
Proof.
  assert (E : rows_of "EUR" [sample_row; with_field 6 (PStr "USD") sample_row]
              = Ok [sample_row]) by (vm_compute; reflexivity).
  exact (conj E (rows_of_idempotent "EUR" _ _ E)).
Defined.


(** A row with a bad date, mapped under the German locale from the C
    locale. *)
Lemma parse_record_keeps_locale_witness :
  restorable (H := sample_locales) c_process
  ∧ snd (parse_record (H := sample_locales) (sample_parser (Some "de_DE.UTF-8"))
           iso_date_row c_process) = c_process.
Proof.
  assert (Hres : restorable (H := sample_locales) c_process) by reflexivity.
  exact (conj Hres (parse_record_keeps_locale (H := sample_locales) _ _ c_process Hres)).
Defined.


(** The sample row under a configured C locale, from a process in the C
    locale and from one in the German locale. *)
Lemma configured_locale_shields_witness :
  (locale (sample_parser (Some "C")) = Some "C"
   ∧ resolve (LocaleDB := sample_locales) "C" = Some "C"
   ∧ restorable (H := sample_locales) c_process
   ∧ restorable (H := sample_locales) german_process)
  ∧ fst (parse_record (H := sample_locales) (sample_parser (Some "C")) sample_row c_process)
    = fst (parse_record (H := sample_locales) (sample_parser (Some "C")) sample_row
             german_process).
Proof.
  assert (H1 : locale (sample_parser (Some "C")) = Some "C") by reflexivity.
  assert (H2 : resolve (LocaleDB := sample_locales) "C" = Some "C") by reflexivity.
  assert (H3 : restorable (H := sample_locales) c_process) by reflexivity.
  assert (H4 : restorable (H := sample_locales) german_process) by reflexivity.
  exact (conj (conj H1 (conj H2 (conj H3 H4)))
    (configured_locale_shields (H := sample_locales) _ sample_row _ _ "C" "C" H1 H2 H3 H4)).
Defined.

(** The payee of the sample row. *)
Lemma payee_format_witness :
  parse_record (H := sample_locales) (sample_parser None) sample_row c_process
  = (Ok (mapped sample_row {| year := 2023; month := 12; day := 25 |}
           (FFinite false 123456 (-2))), c_process)
  ∧ ∃ name email,
      sample_row !! 3 = Some name ∧ sample_row !! 11 = Some email
      ∧ StatementLine.payee
          (mapped sample_row {| year := 2023; month := 12; day := 25 |}
             (FFinite false 123456 (-2)))
        = "Name: " +:+ py_format name +:+ " Email: " +:+ py_format email.
Proof.
  assert (E : parse_record (H := sample_locales) (sample_parser None) sample_row c_process
              = (Ok (mapped sample_row {| year := 2023; month := 12; day := 25 |}
                       (FFinite false 123456 (-2))), c_process))
    by (vm_compute; reflexivity).
  split; [exact E|].
  destruct (payee_format (H := sample_locales) _ _ _ _ _ E)
    as (name & email & Hn & He & _ & _ & Hp & _).
  exists name, email. split; [exact Hn|]. split; [exact He|exact Hp].
Defined.

(** A refund of 1.234,56 under the C locale: the amount is -1234.56. *)
Lemma german_amount_witness :
  (22 < length (with_field 7 (PStr "-1.234,56") sample_row)
   ∧ strptime (field (with_field 7 (PStr "-1.234,56") sample_row) 0) date_format
     = Ok {| year := 2023; month := 12; day := 25 |}
   ∧ with_field 7 (PStr "-1.234,56") sample_row !! 7 = Some (PStr "-1.234,56")
   ∧ replace (replace "-1.234,56" " " "") "." "" = sign_text true +:+ "1234" +:+ "," +:+ "56"
   ∧ digits_only "1234" = true ∧ "1234" ≠ "" ∧ digits_only "56" = true
   ∧ String.length "1234" + String.length "56" ≤ 15
   ∧ restorable (H := sample_locales) c_process
   ∧ effective_locale (H := sample_locales) (locale (sample_parser None)) c_process
     = Some "C"
   ∧ decimal_point (localeconv_of (LocaleDB := sample_locales) "C") = "."
   ∧ thousands_sep (localeconv_of (LocaleDB := sample_locales) "C") = "")
  ∧ parse_record (H := sample_locales) (sample_parser None)
      (with_field 7 (PStr "-1.234,56") sample_row) c_process
    = (Ok (mapped (with_field 7 (PStr "-1.234,56") sample_row)
             {| year := 2023; month := 12; day := 25 |}
             (FFinite true 123456 (-2))), c_process).
Proof.
  assert (H1 : 22 < length (with_field 7 (PStr "-1.234,56") sample_row))
    by (vm_compute; lia).
  assert (H2 : strptime (field (with_field 7 (PStr "-1.234,56") sample_row) 0) date_format
               = Ok {| year := 2023; month := 12; day := 25 |}) by reflexivity.
  assert (H3 : with_field 7 (PStr "-1.234,56") sample_row !! 7 = Some (PStr "-1.234,56"))
    by reflexivity.
  assert (H4 : replace (replace "-1.234,56" " " "") "." ""
               = sign_text true +:+ "1234" +:+ "," +:+ "56") by reflexivity.
  assert (H5 : digits_only "1234" = true) by reflexivity.
  assert (H6 : "1234" ≠ "") by discriminate.
  assert (H7 : digits_only "56" = true) by reflexivity.
  assert (Hfew : String.length "1234" + String.length "56" ≤ 15) by (vm_compute; lia).
  assert (H8 : restorable (H := sample_locales) c_process) by reflexivity.
  assert (H9 : effective_locale (H := sample_locales) (locale (sample_parser None)) c_process
               = Some "C") by reflexivity.
  assert (H10 : decimal_point (localeconv_of (LocaleDB := sample_locales) "C") = ".")
    by reflexivity.
  assert (H11 : thousands_sep (localeconv_of (LocaleDB := sample_locales) "C") = "")
    by reflexivity.
  split; [by repeat split|].
  exact (german_amount (H := sample_locales) (sample_parser None) _ c_process _
           "-1.234,56" "C" true "1234" "56" H1 H2 H3 H4 H5 H6 H7 Hfew H8 H9 H10 H11).
Defined.

(** An amount written the English way, 1234.56, is read as 123456. *)
Lemma dots_are_dropped_witness :
  (22 < length (with_field 7 (PStr "1234.56") sample_row)
   ∧ strptime (field (with_field 7 (PStr "1234.56") sample_row) 0) date_format
     = Ok {| year := 2023; month := 12; day := 25 |}
   ∧ with_field 7 (PStr "1234.56") sample_row !! 7 = Some (PStr "1234.56")
   ∧ replace (replace "1234.56" " " "") "." "" = sign_text false +:+ "123456"
   ∧ digits_only "123456" = true ∧ "123456" ≠ ""
   ∧ String.length "123456" ≤ 15
   ∧ restorable (H := sample_locales) c_process
   ∧ effective_locale (H := sample_locales) (locale (sample_parser None)) c_process
     = Some "C"
   ∧ decimal_point (localeconv_of (LocaleDB := sample_locales) "C") = "."
   ∧ thousands_sep (localeconv_of (LocaleDB := sample_locales) "C") = "")
  ∧ parse_record (H := sample_locales) (sample_parser None)
      (with_field 7 (PStr "1234.56") sample_row) c_process
    = (Ok (mapped (with_field 7 (PStr "1234.56") sample_row)
             {| year := 2023; month := 12; day := 25 |}
             (FFinite false 123456 0)), c_process).
Proof.
  assert (H1 : 22 < length (with_field 7 (PStr "1234.56") sample_row))
    by (vm_compute; lia).
  assert (H2 : strptime (field (with_field 7 (PStr "1234.56") sample_row) 0) date_format
               = Ok {| year := 2023; month := 12; day := 25 |}) by reflexivity.
  assert (H3 : with_field 7 (PStr "1234.56") sample_row !! 7 = Some (PStr "1234.56"))
    by reflexivity.
  assert (H4 : replace (replace "1234.56" " " "") "." "" = sign_text false +:+ "123456")
    by reflexivity.
  assert (H5 : digits_only "123456" = true) by reflexivity.
  assert (H6 : "123456" ≠ "") by discriminate.
  assert (Hfew : String.length "123456" ≤ 15) by (vm_compute; lia).
  assert (H8 : restorable (H := sample_locales) c_process) by reflexivity.
  assert (H9 : effective_locale (H := sample_locales) (locale (sample_parser None)) c_process
               = Some "C") by reflexivity.
  assert (H10 : decimal_point (localeconv_of (LocaleDB := sample_locales) "C") = ".")
    by reflexivity.
  assert (H11 : thousands_sep (localeconv_of (LocaleDB := sample_locales) "C") = "")
    by reflexivity.
  split; [by repeat split|].
  exact (dots_are_dropped (H := sample_locales) (sample_parser None) _ c_process _
           "1234.56" "C" false "123456" H1 H2 H3 H4 H5 H6 Hfew H8 H9 H10 H11).
Defined.

(** The sample row, and the sample row with the dot taken out of
    "1.234,56". *)
Lemma grouping_marks_ignored_witness :
  ("."%char = " "%char ∨ "."%char = "."%char)
  ∧ sample_row !! 7 = Some (PStr ("1" +:+ String "." "234,56"))
  ∧ parse_record (H := sample_locales) (sample_parser None) sample_row c_process
    = parse_record (H := sample_locales) (sample_parser None)
        (<[7 := PStr ("1" +:+ "234,56")]> sample_row) c_process.
Proof.
  assert (H1 : "."%char = " "%char ∨ "."%char = "."%char) by (by right).
  assert (H2 : sample_row !! 7 = Some (PStr ("1" +:+ String "." "234,56")))
    by reflexivity.
  exact (conj H1 (conj H2
    (grouping_marks_ignored (H := sample_locales) (sample_parser None)
       sample_row c_process "1" "234,56" "."%char H1 H2))).
Defined.

(** The parser built for the sample file from the sample settings. *)
Lemma get_parser_builds_witness :
  (sample_settings !! "account_id" = Some "acct"
   ∧ sample_settings !! "currency" = Some "EUR"
   ∧ match sample_settings !! "analyze" with
     | Some v => parse_bool v = Ok false
     | None => false = false
     end)
  ∧ get_parser (H := sample_files) sample_settings "statement.csv"
    = Ok {| account_id := "acct"; currency := "EUR"; locale := None;
            encoding := Some "iso8859-1"; analyze := false;
            lines := [ "Date,Time,Currency"; "25/12/2023,10:00:00,EUR";
                       "26/12/2023,11:30:00,USD" ] |}.
Proof.
  assert (H1 : sample_settings !! "account_id" = Some "acct") by reflexivity.
  assert (H2 : sample_settings !! "currency" = Some "EUR") by reflexivity.
  assert (H3 : match sample_settings !! "analyze" with
               | Some v => parse_bool v = Ok false
               | None => false = false
               end) by reflexivity.
  exact (conj (conj H1 (conj H2 H3))
    (get_parser_builds (H := sample_files) sample_settings "statement.csv"
       "acct" "EUR" false H1 H2 H3)).
Defined.

(** Settings with a currency and no account. *)
Lemma get_parser_missing_witness :
  ((<["currency" := "EUR"]> ∅ : gmap string string) !! "account_id" = None
   ∨ (<["currency" := "EUR"]> ∅ : gmap string string) !! "currency" = None)
  ∧ get_parser (H := sample_files) (<["currency" := "EUR"]> ∅) "statement.csv"
    = Raise TypeError.
Proof.
  assert (H1 : (<["currency" := "EUR"]> ∅ : gmap string string) !! "account_id" = None
               ∨ (<["currency" := "EUR"]> ∅ : gmap string string) !! "currency" = None)
    by (left; reflexivity).
  assert (H2 : ∀ v, (<["currency" := "EUR"]> ∅ : gmap string string) !! "analyze" = Some v →
               ∃ b, parse_bool v = Ok b) by (intros v Hv; discriminate Hv).
  exact (conj H1 (get_parser_missing (H := sample_files) _ "statement.csv" H1 H2)).
Defined.

(** ** Which exceptions come out *)

(** X15 -- The filter raises exactly when some row has fewer than seven
    fields, and then it is [IndexError]; no other exception leaves it,
    and rows of seven fields or more never make it raise. *)
Theorem rows_of_raises_iff (cur : string) (rs : list row) (e : exn) :
  rows_of cur rs = Raise e ↔ e = IndexError ∧ Exists (λ r : row, length r ≤ 6) rs.
Proof.
  split.
  - intros E. destruct (decide (Exists (λ r : row, length r ≤ 6) rs)) as [Hex|Hno].
    + rewrite (rows_of_short cur rs Hex) in E. by injection E as <-.
    + rewrite rows_of_filter in E; [discriminate|].
      apply not_Exists_Forall in Hno; [|intros r; apply _].
      eapply Forall_impl; [exact Hno|]. intros r Hr. simpl in Hr. lia.
  - intros [-> Hex]. by apply rows_of_short.
Qed.

Lemma float_Raise (s : string) (e : exn) : float s = Raise e → e = ValueError.
Proof.
  unfold float. destruct (float_rstrip (float_lstrip s)); [by intros [= <-]|].
  destruct (drop_underscores None _); [|by intros [= <-]].
  destruct (take_sign _) as [neg body].
  repeat (destruct (decide _); [discriminate|]).
  destruct (parse_decimal neg body); [discriminate|by intros [= <-]].
Qed.

Section Exceptions.
Context `{LocaleDB}.
Variable self : PayPalStatementParser.

(** [atof] raises nothing but [locale.Error] and [ValueError]. *)
Lemma atof_Raise (s : string) (loc : option string) (st st' : process) (e : exn) :
  atof s loc st = (Raise e, st') → e = LocaleError ∨ e = ValueError.
Proof.
  destruct st as [cur].
  unfold atof, scoped_setlocale, try_finally, mbind, M_bind, getlocale, setlocale_pair, setlocale,
    mret, M_ret, locale_atof, delocalize, localeconv, lift.
  simpl. destruct loc as [name|]; simpl.
  - destruct (resolve name) as [c|]; simpl.
    + destruct (float _) as [x|e'] eqn:Hf; simpl;
        destruct (resolve _); simpl; intros [= <- _]; auto.
      right. by apply float_Raise in Hf.
    + destruct (resolve _); simpl; intros [= <- _]; auto.
  - destruct (float _) as [x|e'] eqn:Hf; simpl;
      destruct (resolve _); simpl; intros [= <- _]; auto.
    right. by apply float_Raise in Hf.
Qed.

Lemma field_from_csv (fields : list string) (i : nat) :
  i < length fields → ∃ s, field (from_csv fields) i = PStr s.
Proof.
  intros Hlen. destruct (lookup_lt_is_Some_2 fields i Hlen) as [s Hs].
  exists s. unfold field, from_csv. by rewrite list_lookup_fmap, Hs.
Qed.

(** X16 -- On a row of the [csv] reader the mapper raises nothing but
    [IndexError] (a row of fewer than 23 fields), [ValueError] (a Date or
    a Gross that does not parse) and [locale.Error] (a locale that is not
    installed); [TypeError] and [AttributeError] need a field that is
    [None], which the reader never yields. *)
Theorem exceptions_on_csv_rows (fields : list string) (st st' : process) (e : exn) :
  parse_record self (from_csv fields) st = (Raise e, st') →
  (e = IndexError ∧ length fields ≤ 22)
  ∨ (e = ValueError ∧ 22 < length fields)
  ∨ (e = LocaleError ∧ 22 < length fields).
Proof.
  assert (Hl : length (from_csv fields) = length fields)
    by (unfold from_csv; apply length_fmap).
  destruct (le_lt_dec (length fields) 22) as [Hshort|Hlen].
  { rewrite parse_record_short by lia. intros [= <- _]. by left. }
  rewrite parse_record_unfold by lia.
  destruct (field_from_csv fields 0 ltac:(lia)) as [s0 ->].
  destruct (field_from_csv fields 7 ltac:(lia)) as [g ->].
  rewrite bind_lift.
  destruct (strptime (PStr s0) date_format) as [d|e0] eqn:Hd.
  - cbv beta. rewrite bind_lift. cbn [gross_text]. cbv beta iota.
    unfold mbind, M_bind.
    destruct (atof (normalized g) (locale self) st) as [[a|e1] st2] eqn:Ha;
      [discriminate|].
    intros [= <- _]. destruct (atof_Raise _ _ _ _ _ Ha) as [-> | ->]; auto.
  - intros [= <- _]. apply strptime_Raise in Hd as ->. auto.
Qed.

End Exceptions.

(** A row of the reader mapped under a locale that is not installed. *)
Lemma exceptions_on_csv_rows_witness :
  parse_record (H := sample_locales) (sample_parser (Some "xx_XX"))
    (from_csv (empty_title_fields "Invoice 7" "Thanks")) c_process
  = (Raise LocaleError, c_process)
  ∧ ((LocaleError = IndexError ∧ length (empty_title_fields "Invoice 7" "Thanks") ≤ 22)
     ∨ (LocaleError = ValueError ∧ 22 < length (empty_title_fields "Invoice 7" "Thanks"))
     ∨ (LocaleError = LocaleError ∧ 22 < length (empty_title_fields "Invoice 7" "Thanks"))).
Proof.
  assert (E : parse_record (H := sample_locales) (sample_parser (Some "xx_XX"))
                (from_csv (empty_title_fields "Invoice 7" "Thanks")) c_process
              = (Raise LocaleError, c_process)) by (vm_compute; reflexivity).
  exact (conj E (exceptions_on_csv_rows (H := sample_locales) _ _ _ _ _ E)).
Defined.

(** ** The scope of the override *)

Section Scope.
Context `{LocaleDB}.

(** X17 -- [scoped_setlocale] as a whole, when the requested locale is
    installed (or none is requested) and the setting before the call
    survives the trip through [getlocale] and [setlocale] (the name built
    from the reported pair, normalised, selects it again): the body runs
    once, in a process switched to the
    requested locale and with the name [setlocale] returned; its result,
    value or exception, is the result of the statement; and whatever the
    body did to the locale, the process ends in the setting it started
    from. *)
Theorem scoped_setlocale_scope {A : Type} (loc : option string)
    (body : string → M A) (st : process) (c : string) :
  restorable st →
  effective_locale loc st = Some c →
  scoped_setlocale loc body st = (fst (body c {| lc_numeric := c |}), st).
Proof.
  intros Hres Heff. destruct st as [cur]. simpl in Hres.
  unfold scoped_setlocale, try_finally, mbind, M_bind, getlocale, setlocale_pair, setlocale, mret, M_ret.
  unfold effective_locale in Heff. simpl in *. destruct loc as [name|]; simpl.
  - rewrite Heff. simpl.
    destruct (body c {| lc_numeric := c |}) as [[a|e] st2]; simpl;
      rewrite Hres; reflexivity.
  - injection Heff as <-.
    destruct (body cur {| lc_numeric := cur |}) as [[a|e] st2]; simpl;
      rewrite Hres; reflexivity.
Qed.

End Scope.

(** A body that itself switches the process to the German locale and
    returns: the statement returns what the body did, and the process is
    back in the C locale. *)
Lemma scoped_setlocale_scope_witness :
  (restorable (H := sample_locales) c_process
   ∧ effective_locale (H := sample_locales) None c_process = Some "C")
  ∧ scoped_setlocale (H := sample_locales) None
      (λ _ : string, setlocale (H := sample_locales) (Some "de_DE.UTF-8")) c_process
    = (Ok "de_DE.UTF-8", c_process).
Proof.
  assert (Hres : restorable (H := sample_locales) c_process) by reflexivity.
  assert (Heff : effective_locale (H := sample_locales) None c_process = Some "C")
    by reflexivity.
  exact (conj (conj Hres Heff)
    (scoped_setlocale_scope (H := sample_locales) None
       (λ _ : string, setlocale (H := sample_locales) (Some "de_DE.UTF-8"))
       c_process "C" Hres Heff)).
Defined.

(** * The setting that is not restored *)

(** C8 -- After a call of [atof] the process-wide numeric locale should
    be what it was before the call.  The code does not keep that: it
    saves the pair [getlocale] reports and hands the pair back to
    [setlocale], which builds a name from it.  From a process in
    "C.utf8", a setting the C library selects by that very name, the
    pair is read through the alias table as that of "en_US.UTF-8", which
    is not installed: a call of [atof] with the locale "C" parses the
    number, then raises [locale.Error] from its [finally] clause and
    leaves the process in "C". *)
Lemma atof_leaves_locale_switched :
  resolve (LocaleDB := sample_locales) (lc_numeric utf8_process)
  = Some (lc_numeric utf8_process)
  ∧ fst (locale_atof (H := sample_locales) "1234.56" c_process)
    = Ok (FFinite false 123456 (-2))
  ∧ atof (H := sample_locales) "1234.56" (Some "C") utf8_process
    = (Raise LocaleError, c_process)
  ∧ c_process ≠ utf8_process.
Proof. repeat split; try (vm_compute; reflexivity). discriminate. Qed.
